(** * Monitor de atividade: interval tracking and aggregation

    A shallow embedding of [main.py]: the two SQLite tables, the SQL
    statements the program issues, the tracker ([registrar_status],
    [registrar_programa], [monitorar]) and the aggregator
    ([atualizar_canvas]: the totals query and the per-minute colours),
    followed by the properties of the interval engine. *)

From Stdlib Require Import ZArith QArith Lia List String DecimalString.
From Stdlib Require Import Floats.PrimFloat Floats.SpecFloat Floats.FloatOps.
From Stdlib Require Import Uint63.
From stdpp Require Import base tactics option list strings.

Local Open Scope string_scope.
Local Open Scope list_scope.
Local Open Scope Z_scope.

(** ** Wall-clock timestamps

    The program keeps every timestamp as the text
    [strftime("%Y-%m-%d %H:%M:%S")] of a [datetime]; that image is
    injective, SQL compares the texts for equality only, and
    [strptime] with the same format reads the fields back, so a column
    of such texts is modelled by the [datetime] fields themselves. *)

Record datahora := DataHora {
  ano : Z; mes : Z; dia : Z; hora : Z; minuto : Z; segundo : Z
}.

#[global] Instance datahora_eq_dec : EqDecision datahora.
Proof. solve_decision. Defined.

(** [datetime.date()], SQL [date(...)] and [hoje.strftime("%Y-%m-%d")]. *)
Definition data : Type := Z * Z * Z.

Definition date (t : datahora) : data := (ano t, mes t, dia t).

(** [t.hour * 60 + t.minute] *)
Definition minuto_do_dia (t : datahora) : Z := hora t * 60 + minuto t.

(** SQLite's Julian day number of a timestamp in milliseconds: the
    [iJD] field that [computeJD] of SQLite's date.c computes as
    [(X1 + X2 + D + B - 1524.5) * 86400000] plus the time of day, with
    C's integer divisions. The doubles involved are half-integers below
    2^53, so the product is exact and is written here on integers. *)
Definition iJD (t : datahora) : Z :=
  let '(Y, M) := if mes t <=? 2 then (ano t - 1, mes t + 12) else (ano t, mes t) in
  let A := Y ÷ 100 in
  let B := 2 - A + A ÷ 4 in
  let X1 := (36525 * (Y + 4716)) ÷ 100 in
  let X2 := (306001 * (M + 1)) ÷ 10000 in
  (2 * (X1 + X2 + dia t + B) - 3049) * 43200000
  + hora t * 3600000 + minuto t * 60000 + segundo t * 1000.

(** Whole seconds between two timestamps: the direct integer
    second-difference. *)
Definition segundos_entre (inicio fim : datahora) : Z :=
  (iJD fim - iJD inicio) ÷ 1000.

(** ** The interval store: two SQLite tables *)

(** Both tables hold intervals: a start, and an end that is NULL while
    the interval is open. *)
Class Intervalo (L : Type) := {
  comeca : L -> datahora;
  termina : L -> option datahora;
  encerrar : datahora -> L -> L
}.

(** SQL [data_hora_final IS NULL] *)
Definition aberta {L} `{Intervalo L} (r : L) : bool :=
  match termina r with None => true | Some _ => false end.

(** Table [log_atividade]. *)
Module Log.
Record linha := Linha {
  id : nat;
  status : string;
  data_hora : datahora;
  data_hora_final : option datahora
}.

#[global] Instance eq_dec_log : EqDecision linha.
Proof. solve_decision. Defined.

#[global] Instance intervalo_log : Intervalo linha := {|
  comeca := data_hora;
  termina := data_hora_final;
  encerrar fim r := Linha (id r) (status r) (data_hora r) (Some fim)
|}.
End Log.

(** Table [programas_documentos]. *)
Module Prog.
Record linha := Linha {
  id : nat;
  nome_programa : option string;
  nome_documento : option string;
  data_hora_inicio : datahora;
  data_hora_final : option datahora
}.

#[global] Instance eq_dec_prog : EqDecision linha.
Proof. solve_decision. Defined.

#[global] Instance intervalo_prog : Intervalo linha := {|
  comeca := data_hora_inicio;
  termina := data_hora_final;
  encerrar fim r :=
    Linha (id r) (nome_programa r) (nome_documento r) (data_hora_inicio r) (Some fim)
|}.
End Prog.

(** The database as the one connection of the program has it
    ([BancoUtil.conn], which every statement and query goes through):
    the rows of the two tables as that connection sees them, those of
    its open transaction included, and whether some statement it ran
    is still in that transaction, not yet written to the file by a
    commit. *)
Record banco := Banco {
  log_atividade : list Log.linha;
  programas_documentos : list Prog.linha;
  pendente : bool
}.

Definition banco_vazio : banco := Banco [] [] false.

(** SQL [column = ?] on a nullable column with a parameter that may be
    [None]: a comparison with NULL is never true. *)
Definition sql_eq {A} `{EqDecision A} (coluna parametro : option A) : bool :=
  match coluna, parametro with
  | Some x, Some y => bool_decide (x = y)
  | _, _ => false
  end.

(** [UPDATE log_atividade SET data_hora_final = ?
     WHERE status = ? AND data_hora_final IS NULL] *)
Definition update_log (agora : datahora) (st : string) (t : list Log.linha)
  : list Log.linha :=
  map (fun r => if bool_decide (Log.status r = st) && aberta r
                then encerrar agora r else r) t.

(** [INSERT INTO log_atividade (status, data_hora) VALUES (?, ?)]; the
    key is AUTOINCREMENT and rows are never deleted. *)
Definition insert_log (st : string) (agora : datahora) (t : list Log.linha)
  : list Log.linha :=
  t ++ [Log.Linha (S (length t)) st agora None].

(** [UPDATE programas_documentos SET data_hora_final = ?
     WHERE nome_programa = ? AND nome_documento = ?
       AND data_hora_inicio = ? AND data_hora_final IS NULL] *)
Definition prog_casa (app titulo : option string) (inicio : option datahora)
  (r : Prog.linha) : bool :=
  sql_eq (Prog.nome_programa r) app && sql_eq (Prog.nome_documento r) titulo
  && sql_eq (Some (Prog.data_hora_inicio r)) inicio && aberta r.

Definition update_prog (agora : datahora) (app titulo : option string)
  (inicio : option datahora) (t : list Prog.linha) : list Prog.linha :=
  map (fun r => if prog_casa app titulo inicio r then encerrar agora r else r) t.

(** [INSERT INTO programas_documentos
     (nome_programa, nome_documento, data_hora_inicio) VALUES (?, ?, ?)] *)
Definition insert_prog (app titulo : option string) (agora : datahora)
  (t : list Prog.linha) : list Prog.linha :=
  t ++ [Prog.Linha (S (length t)) app titulo agora None].

(** A statement on one of the two tables; once it has run it is in the
    open transaction of the connection. *)
Definition em_log (stmt : list Log.linha -> list Log.linha) (b : banco) : banco :=
  Banco (stmt (log_atividade b)) (programas_documentos b) true.

Definition em_prog (stmt : list Prog.linha -> list Prog.linha) (b : banco) : banco :=
  Banco (log_atividade b) (stmt (programas_documentos b)) true.

(** [cursor.execute]: a statement either runs or raises
    [sqlite3.Error]; a statement that raises changes nothing. [falha]
    says which. *)
Definition cursor_execute (falha : bool) (stmt : banco -> banco) (b : banco)
  : option banco :=
  if falha then None else Some (stmt b).

(** [conn.commit()]: it writes the open transaction to the file, or it
    raises [sqlite3.Error] and the transaction stays open, with the
    statements that ran in it. *)
Definition conn_commit (falha : bool) (b : banco) : option banco :=
  if falha then None
  else Some (Banco (log_atividade b) (programas_documentos b) false).

(** [BancoUtil.executar] for a write: [execute] and [commit] are in one
    [try], and an [sqlite3.Error] of either is printed and swallowed
    (the caller gets [None]). When the statement raised nothing has
    changed; when the commit raised the statement has run and stays in
    the open transaction. *)
Definition executar (falha_execute falha_commit : bool) (stmt : banco -> banco)
  (b : banco) : banco :=
  match cursor_execute falha_execute stmt b with
  | None => b
  | Some b1 =>
      match conn_commit falha_commit b1 with
      | None => b1
      | Some b2 => b2
      end
  end.

(** ** The tracker *)

(** [LIMITE_OCIOSO] *)
Definition LIMITE_OCIOSO : Z := 300.

(** The fields of [LogAtividade] the tracking loop reads and writes. *)
Record LogAtividade := Self {
  db : banco;
  status_atual : option string;
  limite_ocioso : Z;
  ultimo_app : option string;
  ultimo_titulo : option string;
  inicio_app : option datahora
}.

(** The object as [__init__] leaves it over a new database file. *)
Definition novo (b : banco) : LogAtividade :=
  Self b None LIMITE_OCIOSO None None None.

(** Python truth value of a [str] or [None]. *)
Definition truthy (o : option string) : bool :=
  match o with
  | Some s => negb (bool_decide (s = ""))
  | None => false
  end.

(** Which calls of one tick raise: the UPDATE and the INSERT of
    [registrar_status] and of [registrar_programa], the commit that
    [executar] runs after each statement of [registrar_status], and in
    [registrar_programa] the [conn.cursor()] before the statements, the
    one [conn.commit()] after them and the closing [print]. *)
Record falhas := Falhas {
  falha_update_log : bool;
  falha_insert_log : bool;
  falha_update_prog : bool;
  falha_insert_prog : bool;
  falha_commit_update_log : bool;
  falha_commit_insert_log : bool;
  falha_cursor_prog : bool;
  falha_commit_prog : bool;
  falha_print_prog : bool
}.

Definition sem_falhas : falhas :=
  Falhas false false false false false false false false false.

(** [registrar_status]; [agora] is its one reading of the clock. *)
Definition registrar_status (f : falhas) (agora : datahora) (novo_status : string)
  (self : LogAtividade) : LogAtividade :=
  if bool_decide (status_atual self ≠ Some novo_status) then
    let b0 := db self in
    let b1 :=
      match status_atual self with
      | Some s => if truthy (Some s)
                  then executar (falha_update_log f) (falha_commit_update_log f)
                         (em_log (update_log agora s)) b0
                  else b0
      | None => b0
      end in
    let b2 := executar (falha_insert_log f) (falha_commit_insert_log f)
                (em_log (insert_log novo_status agora)) b1 in
    Self b2 (Some novo_status)
         (limite_ocioso self) (ultimo_app self) (ultimo_titulo self) (inicio_app self)
  else self.

(** Outcome of a call that may let an exception escape; the object is
    given as it stands in memory at that point. *)
Inductive resultado :=
  | Retorna (self : LogAtividade)
  | Excecao (self : LogAtividade).

(** The object with the database as an exception leaves it. *)
Definition com_banco (self : LogAtividade) (b : banco) : LogAtividade :=
  Self b (status_atual self)
       (limite_ocioso self) (ultimo_app self) (ultimo_titulo self) (inicio_app self).

(** [registrar_programa]; it drives a cursor of its own and nothing
    catches what [conn.cursor()], the statements or the commit raise:
    the exception leaves the function before the assignment to
    [ultimo_app], [ultimo_titulo] and [inicio_app], with the statements
    that ran left in the open transaction. The [print] comes after the
    assignment. *)
Definition registrar_programa (f : falhas) (agora : datahora)
  (app titulo : option string) (self : LogAtividade) : resultado :=
  if falha_cursor_prog f then Excecao self
  else
    let b0 := db self in
    let fechado :=
      if truthy (ultimo_app self) && bool_decide (is_Some (inicio_app self))
      then cursor_execute (falha_update_prog f)
             (em_prog (update_prog agora (ultimo_app self) (ultimo_titulo self)
                         (inicio_app self))) b0
      else Some b0 in
    match fechado with
    | None => Excecao self
    | Some b1 =>
        match cursor_execute (falha_insert_prog f)
                (em_prog (insert_prog app titulo agora)) b1 with
        | None => Excecao (com_banco self b1)
        | Some b2 =>
            match conn_commit (falha_commit_prog f) b2 with
            | None => Excecao (com_banco self b2)
            | Some b3 =>
                let self' := Self b3 (status_atual self) (limite_ocioso self)
                                  app titulo (Some agora) in
                if falha_print_prog f then Excecao self' else Retorna self'
            end
        end
    end.

(** What the operating system answers in one tick. *)
Record leitura_idle := LeituraIdle { tick_count : Z; dw_time : Z }.

Record leitura_foco := LeituraFoco {
  hwnd : Z;
  nome_processo : option string;   (* [None]: psutil raised *)
  texto_janela : option string     (* [None]: win32gui raised *)
}.

(** [get_idle_time]; [None] stands for a failing Windows call. *)
Definition get_idle_time (l : option leitura_idle) : Q :=
  match l with
  | Some l => (tick_count l - dw_time l) # 1000
  | None => 0
  end.

(** [get_focused_app] *)
Definition get_focused_app (l : leitura_foco) : option string * option string :=
  if hwnd l =? 0 then (None, None)
  else match nome_processo l, texto_janela l with
       | Some n, Some t => (Some n, Some t)
       | _, _ => (None, None)
       end.

(** One pass of the loop of [monitorar]: what the system answers and the
    two clock readings taken by the two [registrar_] calls. *)
Record amostra := Amostra {
  idle : option leitura_idle;
  foco : leitura_foco;
  agora_status : datahora;
  agora_programa : datahora
}.

Definition classificar (self : LogAtividade) (a : amostra) : string :=
  if Qle_bool (inject_Z (limite_ocioso self)) (get_idle_time (idle a))
  then "Ocioso" else "Ativo".

Definition tick (f : falhas) (a : amostra) (self : LogAtividade) : resultado :=
  let self1 := registrar_status f (agora_status a) (classificar self a) self in
  let '(app, titulo) := get_focused_app (foco a) in
  if bool_decide (app ≠ ultimo_app self1) || bool_decide (titulo ≠ ultimo_titulo self1)
  then registrar_programa f (agora_programa a) app titulo self1
  else Retorna self1.

(** [monitorar]: the loop runs until an exception leaves it (nothing
    catches it, the thread ends) or the samples are exhausted. *)
Fixpoint monitorar (ticks : list (falhas * amostra)) (self : LogAtividade) : resultado :=
  match ticks with
  | [] => Retorna self
  | (f, a) :: resto =>
      match tick f a self with
      | Retorna self' => monitorar resto self'
      | Excecao self' => Excecao self'
      end
  end.

Definition objeto (r : resultado) : LogAtividade :=
  match r with Retorna s | Excecao s => s end.

(** A run in which no store statement fails, from a new database. *)
Definition sem_falha (a : amostra) : falhas * amostra := (sem_falhas, a).

Definition executar_amostras (amostras : list amostra) : LogAtividade :=
  objeto (monitorar (map sem_falha amostras) (novo banco_vazio)).

(** ** The aggregator: [atualizar_canvas] *)

(** SQLite REAL arithmetic, as the totals query uses it. SQLite
    computes with IEEE 754 binary64 numbers ([real_binary64]); exact
    rationals ([real_exato]) are the idealisation the rounding is
    measured against. *)
Class Real (R : Type) := {
  de_inteiro : Z -> R;
  r_add : R -> R -> R;
  r_sub : R -> R -> R;
  r_mul : R -> R -> R;
  r_div : R -> R -> R;
  r_nulo : R -> bool;          (* is the number zero *)
  r_trunc : R -> Z             (* CAST(x AS INTEGER): towards zero *)
}.

(** SQL [ROUND(x, 2)] *)
Class Arredonda (R : Type) := r_round2 : R -> R.

#[global] Instance real_exato : Real Q := {|
  de_inteiro := inject_Z;
  r_add := Qplus;
  r_sub := Qminus;
  r_mul := Qmult;
  r_div := Qdiv;
  r_nulo x := Qeq_bool x 0;
  r_trunc x := Qnum x ÷ Z.pos (Qden x)
|}.

(** Half away from zero at the second decimal. *)
#[global] Instance arredonda_exato : Arredonda Q := fun x =>
  let n := Qnum x * 200 in
  let d := Z.pos (Qden x) * 2 in
  ((if 0 <=? n then (n + Z.pos (Qden x)) ÷ d else (n - Z.pos (Qden x)) ÷ d) # 100)%Q.

Definition float_de_inteiro (z : Z) : float :=
  if 0 <=? z then PrimFloat.of_uint63 (Uint63.of_Z z)
  else PrimFloat.opp (PrimFloat.of_uint63 (Uint63.of_Z (- z))).

Definition float_trunc (x : float) : Z :=
  match Prim2SF x with
  | S754_finite s m e =>
      let v := if 0 <=? e then Z.pos m * 2 ^ e else Z.pos m ÷ 2 ^ (- e) in
      if s then - v else v
  | _ => 0
  end.

#[global] Instance real_binary64 : Real float := {|
  de_inteiro := float_de_inteiro;
  r_add := PrimFloat.add;
  r_sub := PrimFloat.sub;
  r_mul := PrimFloat.mul;
  r_div := PrimFloat.div;
  r_nulo x := PrimFloat.eqb x PrimFloat.zero;
  r_trunc := float_trunc
|}.

(** [printf('%02d', n)]; a NULL argument prints as 0. *)
Definition printf_02d (n : option Z) : string :=
  let s := NilZero.string_of_int (Z.to_int (default 0 n)) in
  if (String.length s <? 2)%nat then "0" +:+ s else s.

Section Consulta.
Context {R : Type} `{Real R}.

(** [julianday(t)]: SQLite divides its millisecond day number by
    86400000.0. *)
Definition julianday (t : datahora) : R :=
  r_div (de_inteiro (iJD t)) (de_inteiro 86400000).

(** [COALESCE(data_hora_final, DATETIME('now', 'localtime'))] *)
Definition fim_efetivo (agora : datahora) (r : Log.linha) : datahora :=
  default agora (Log.data_hora_final r).

(** [(julianday(COALESCE(...)) - julianday(data_hora)) * 24] *)
Definition horas (agora : datahora) (r : Log.linha) : R :=
  r_mul (r_sub (julianday (fim_efetivo agora r)) (julianday (Log.data_hora r)))
        (de_inteiro 24).

(** [FROM log_atividade WHERE date(data_hora) = ?] *)
Definition do_dia (hoje : data) (t : list Log.linha) : list Log.linha :=
  List.filter (fun r => bool_decide (date (Log.data_hora r) = hoje)) t.

(** [SUM(...)]: NULL over no rows, otherwise the terms are added in
    row order starting from zero. *)
Definition sql_sum (termos : list R) : option R :=
  match termos with
  | [] => None
  | _ => Some (fold_left r_add termos (de_inteiro 0))
  end.

(** [SUM(CASE WHEN status = s THEN horas ELSE 0 END)]; with [None] for
    the plain [SUM(horas)]. *)
Definition termo (s : option string) (agora : datahora) (r : Log.linha) : R :=
  match s with
  | None => horas agora r
  | Some s => if bool_decide (Log.status r = s) then horas agora r else de_inteiro 0
  end.

Definition soma_horas (s : option string) (hoje : data) (agora : datahora)
  (t : list Log.linha) : option R :=
  sql_sum (map (termo s agora) (do_dia hoje t)).

(** [printf('%02d:%02d', CAST(x AS INTEGER), CAST((x * 60) % 60 AS INTEGER))];
    [%] casts both operands to integers, and NULL operands give NULL. *)
Definition hh_mm (x : option R) : string :=
  printf_02d (r_trunc <$> x) +:+ ":"
  +:+ printf_02d ((fun v => Z.rem (r_trunc (r_mul v (de_inteiro 60))) 60) <$> x).

Definition horas_totais_sql hoje agora t : string := hh_mm (soma_horas None hoje agora t).
Definition horas_ativas_sql hoje agora t : string :=
  hh_mm (soma_horas (Some "Ativo") hoje agora t).
Definition horas_ociosas_sql hoje agora t : string :=
  hh_mm (soma_horas (Some "Ocioso") hoje agora t).

(** [100.0 * SUM(ociosas) / SUM(total)]: NULL when an operand is NULL
    or the divisor is zero. *)
Definition razao_ociosa hoje agora t : option R :=
  match soma_horas (Some "Ocioso") hoje agora t, soma_horas None hoje agora t with
  | Some o, Some tot =>
      if r_nulo tot then None else Some (r_div (r_mul (de_inteiro 100) o) tot)
  | _, _ => None
  end.

Context `{Arredonda R}.

(** The values shown in the status label. The percentage is a Python
    value: a number, or [None] for an SQL NULL. *)
Record totais := Totais {
  horas_totais : string;
  horas_ativas : string;
  horas_ociosas : string;
  pct_ociosas : option R
}.

(** The result set of the totals query: an aggregate without GROUP BY
    always yields one row. *)
Definition consulta_horas hoje agora t : list totais :=
  [Totais (horas_totais_sql hoje agora t) (horas_ativas_sql hoje agora t)
          (horas_ociosas_sql hoje agora t) (r_round2 <$> razao_ociosa hoje agora t)].

Definition totais_padrao : totais := Totais "00:00" "00:00" "00:00" (Some (de_inteiro 0)).

(** First half of [atualizar_canvas]; [falha] is the query raising
    [sqlite3.Error], on which [executar] returns [None]. *)
Definition calcular_horas (falha : bool) hoje agora t : totais :=
  match (if falha then None else Some (consulta_horas hoje agora t)) with
  | Some (row :: _) => row
  | _ => totais_padrao
  end.
End Consulta.

Arguments totais R : clear implicits.

(** [range(a, b)] *)
Definition range (a b : Z) : list Z :=
  map (fun k => a + Z.of_nat k) (seq 0 (Z.to_nat (b - a))).

(** [if 0 <= i < 1440: colors[i] = cor] *)
Definition pintar (cor : string) (colors : list string) (i : Z) : list string :=
  if (0 <=? i) && (i <? 1440) then <[Z.to_nat i := cor]> colors else colors.

(** Body of the loop over the rows of
    [SELECT status, data_hora, COALESCE(data_hora_final, now)]. *)
Definition pintar_linha (hoje : data) (agora : datahora) (colors : list string)
  (r : Log.linha) : list string :=
  let inicio := Log.data_hora r in
  let fim := fim_efetivo agora r in
  if bool_decide (date inicio ≠ hoje) then colors
  else
    let min_inicio := minuto_do_dia inicio in
    let min_fim := minuto_do_dia fim in
    let cor := if bool_decide (Log.status r = "Ativo") then "green" else "red" in
    fold_left (pintar cor) (range min_inicio (min_fim + 1)) colors.

(** [if colors[minuto] == "gray": colors[minuto] = "lightblue"] *)
Definition horario_comercial (colors : list string) (m : Z) : list string :=
  if bool_decide (colors !! Z.to_nat m = Some "gray")
  then <[Z.to_nat m := "lightblue"]> colors else colors.

(** Second half of [atualizar_canvas]: the 1440 colours of the day. *)
Definition linha_do_tempo (hoje : data) (agora : datahora) (t : list Log.linha)
  : list string :=
  let colors := fold_left (pintar_linha hoje agora) t (replicate 1440 "gray") in
  fold_left horario_comercial (range (8 * 60) (18 * 60)) colors.

(** ** Predicates on a series of intervals *)

Section Series.
Context {L : Type} `{Intervalo L}.

(** [fecha r]: the tracker closes [r] when a successor is opened. *)
Variable fecha : L -> bool.

(** Successive intervals share their boundary: an end that was
    written is the successor's start, and the intervals the tracker
    closes have one. *)
Fixpoint encadeada (t : list L) : Prop :=
  match t with
  | prev :: ((next :: _) as resto) =>
      (fecha prev = true -> termina prev = Some (comeca next))
      /\ (forall fim, termina prev = Some fim -> fim = comeca next)
      /\ encadeada resto
  | _ => True
  end.

(** Number of open intervals of a table. *)
Definition abertas (t : list L) : nat := length (List.filter aberta t).
End Series.

(** Rows of [programas_documentos] that pass the guard
    [if self.ultimo_app and self.inicio_app] when they are superseded. *)
Definition fecha_prog (r : Prog.linha) : bool := truthy (Prog.nome_programa r).

Definition fecha_log (r : Log.linha) : bool := true.

(** What [get_focused_app] can return. *)
Definition par_de_foco (app titulo : option string) : Prop :=
  (app = None /\ titulo = None) \/ (is_Some app /\ is_Some titulo).

(** The state of the tracker and of its two tables, between two ticks
    of a run without store failures. *)
Definition inv_log (self : LogAtividade) : Prop :=
  let t := log_atividade (db self) in
  match status_atual self with
  | None => t = []
  | Some s =>
      truthy (Some s) = true
      /\ exists pre r, t = pre ++ [r]
           /\ Log.status r = s /\ termina r = None
           /\ Forall (fun x => aberta x = false) pre
           /\ encadeada fecha_log t
  end.

Definition inv_prog (self : LogAtividade) : Prop :=
  let t := programas_documentos (db self) in
  par_de_foco (ultimo_app self) (ultimo_titulo self)
  /\ match inicio_app self with
     | None => t = [] /\ ultimo_app self = None
     | Some t0 =>
         exists pre r, t = pre ++ [r]
           /\ Prog.nome_programa r = ultimo_app self
           /\ Prog.nome_documento r = ultimo_titulo self
           /\ Prog.data_hora_inicio r = t0 /\ termina r = None
           /\ Forall (fun x => fecha_prog x = true -> aberta x = false) pre
           /\ encadeada fecha_prog t
     end.

Definition inv (self : LogAtividade) : Prop := inv_log self /\ inv_prog self.

(** ** Concrete inputs used in the examples below *)

Definition dia_exemplo : data := (2024, 1, 1).

Definition instante (h m s : Z) : datahora := DataHora 2024 1 1 h m s.

Definition janela (nome titulo : string) : leitura_foco :=
  LeituraFoco 1 (Some nome) (Some titulo).

Definition sem_janela : leitura_foco := LeituraFoco 0 None None.

(** A sample with [idle_ms] milliseconds since the last input, taken at
    [t] (both clock readings fall in the same second). *)
Definition amostra_em (idle_ms : Z) (f : leitura_foco) (t : datahora) : amostra :=
  Amostra (Some (LeituraIdle idle_ms 0)) f t t.

(** The user works in one window, goes idle, and the focus moves. *)
Definition amostras_trabalho : list amostra :=
  [ amostra_em 0 (janela "notepad.exe" "a.txt") (instante 9 0 0);
    amostra_em 400000 (janela "chrome.exe" "b") (instante 9 10 0) ].

(** A window has the focus, then no window has it, then another window. *)
Definition amostras_sem_foco : list amostra :=
  [ amostra_em 0 (janela "notepad.exe" "a.txt") (instante 9 0 0);
    amostra_em 0 sem_janela (instante 9 0 5);
    amostra_em 0 (janela "chrome.exe" "b") (instante 9 0 10) ].

(** A database left by an earlier session whose last status interval
    was never closed, and the samples of a new session. *)
Definition banco_sessao_anterior : banco :=
  Banco [Log.Linha 1 "Ativo" (instante 8 0 0) None] [] false.

Definition amostras_nova_sessao : list amostra :=
  [ amostra_em 0 sem_janela (instante 9 0 0);
    amostra_em 400000 sem_janela (instante 9 0 10) ].

(** The first tick of that new session alone. *)
Definition amostras_primeiro_tick : list amostra :=
  [ amostra_em 0 sem_janela (instante 9 0 0) ].

(** Two open rows of the same window that differ in their start, and
    one open status row. *)
Definition programas_exemplo : list Prog.linha :=
  [ Prog.Linha 1 (Some "notepad.exe") (Some "a.txt") (instante 8 0 0) None;
    Prog.Linha 2 (Some "notepad.exe") (Some "a.txt") (instante 9 0 0) None ].

Definition log_exemplo : list Log.linha :=
  [ Log.Linha 1 "Ativo" (instante 8 0 0) None ].

(** The one interval of the day: "Ativo" from 09:00 to 09:02. *)
Definition log_nove_horas (s1 s2 : Z) : list Log.linha :=
  [ Log.Linha 1 "Ativo" (instante 9 0 s1) (Some (instante 9 2 s2)) ].

(** An interval that starts at 23:50 and ends at 00:10 of the next day. *)
Definition linha_meia_noite : Log.linha :=
  Log.Linha 1 "Ativo" (instante 23 50 0) (Some (DataHora 2024 1 2 0 10 0)).

(** ** Durations in whole seconds

    The totals as the specification words them: the sum, over the
    intervals that start on the day, of the whole seconds between the
    start and the effective end, shown as hours and minutes with the
    seconds dropped. *)
Definition conta (s : option string) (r : Log.linha) : bool :=
  match s with
  | None => true
  | Some s => bool_decide (Log.status r = s)
  end.

Definition duracao (agora : datahora) (r : Log.linha) : Z :=
  segundos_entre (Log.data_hora r) (fim_efetivo agora r).

Definition segundos_do_dia (s : option string) (hoje : data) (agora : datahora)
  (t : list Log.linha) : Z :=
  fold_right Z.add 0
    (map (duracao agora)
         (List.filter (fun r => bool_decide (date (Log.data_hora r) = hoje) && conta s r) t)).

Definition hh_mm_de_segundos (s : Z) : string :=
  printf_02d (Some (s ÷ 3600)) +:+ ":" +:+ printf_02d (Some (Z.rem (s ÷ 60) 60)).

(** The INSERT of [registrar_status] fails. *)
Definition falha_no_insert_log : falhas :=
  Falhas false true false false false false false false false.

(** The INSERT of [registrar_programa] fails. *)
Definition falha_no_insert_prog : falhas :=
  Falhas false false false true false false false false false.

(** The WHERE clause of the UPDATE of [programas_documentos], spelled
    out: the three key columns equal the parameters, none of which is
    NULL, and the row is open. *)
Definition chave_prog (app titulo : option string) (inicio : option datahora)
  (r : Prog.linha) : Prop :=
  Prog.nome_programa r = app /\ is_Some app
  /\ Prog.nome_documento r = titulo /\ is_Some titulo
  /\ Some (Prog.data_hora_inicio r) = inicio
  /\ Prog.data_hora_final r = None.

(** The WHERE clause of the UPDATE of [log_atividade]: the status and
    nothing else identifies the open rows to close. *)
Definition chave_log (st : string) (r : Log.linha) : Prop :=
  Log.status r = st /\ Log.data_hora_final r = None.

#[global] Instance chave_prog_dec app titulo inicio r :
  Decision (chave_prog app titulo inicio r).
Proof. unfold chave_prog. apply _. Defined.

#[global] Instance chave_log_dec st r : Decision (chave_log st r).
Proof. unfold chave_log. apply _. Defined.

(** ** What a run writes: the change points of the samples *)

(** The elements of a sequence of dated readings that differ from the
    reading before them ([anterior] before the first). *)
Fixpoint mudancas {A} `{EqDecision A} (anterior : A) (l : list (A * datahora))
  : list (A * datahora) :=
  match l with
  | [] => []
  | (x, t) :: resto =>
      if decide (x = anterior) then mudancas anterior resto
      else (x, t) :: mudancas x resto
  end.

(** The status of one sample with the clock reading of
    [registrar_status], and its focus pair with the clock reading of
    [registrar_programa]. *)
Definition leitura_de_status (self : LogAtividade) (a : amostra)
  : option string * datahora :=
  (Some (classificar self a), agora_status a).

Definition leitura_de_foco (a : amostra)
  : (option string * option string) * datahora :=
  (get_focused_app (foco a), agora_programa a).

(** The columns a row is inserted with. *)
Definition colunas_log (r : Log.linha) : option string * datahora :=
  (Some (Log.status r), Log.data_hora r).

Definition colunas_prog (r : Prog.linha) : (option string * option string) * datahora :=
  ((Prog.nome_programa r, Prog.nome_documento r), Prog.data_hora_inicio r).

(** A row after some statements of the tracker: as it was, or closed
    once if it was open. *)
Definition evolui {L} `{Intervalo L} (r r' : L) : Prop :=
  r' = r \/ (termina r = None /\ exists fim, r' = encerrar fim r).

(** No call of [registrar_programa] raises. *)
Definition sem_falha_de_foco (f : falhas) : Prop :=
  falha_cursor_prog f = false /\ falha_update_prog f = false
  /\ falha_insert_prog f = false /\ falha_commit_prog f = false
  /\ falha_print_prog f = false.

(** The clock readings of [registrar_status] never go back. *)
Definition relogio_crescente (amostras : list amostra) : Prop :=
  forall i j a b, (i <= j)%nat -> amostras !! i = Some a -> amostras !! j = Some b ->
                  iJD (agora_status a) <= iJD (agora_status b).

(** ** The colour of one slot *)

(** [cor = "green" if status == "Ativo" else "red"] *)
Definition cor_da_linha (r : Log.linha) : string :=
  if bool_decide (Log.status r = "Ativo") then "green" else "red".

(** The row starts on the day and the minute [i] lies between the
    minute of its start and the minute of its end, both included; the
    end of an open row is "now". *)
Definition cobre (hoje : data) (agora : datahora) (i : Z) (r : Log.linha) : bool :=
  bool_decide (date (Log.data_hora r) = hoje)
  && (minuto_do_dia (Log.data_hora r) <=? i)
  && (i <=? minuto_do_dia (match Log.data_hora_final r with
                           | Some fim => fim
                           | None => agora
                           end)).

(** The colour of the last row of the table that covers the slot; with
    no such row, the fill of the hours from 08:00 to 18:00. *)
Definition cor_do_slot (hoje : data) (agora : datahora) (t : list Log.linha) (i : Z)
  : string :=
  match List.find (cobre hoje agora i) (rev t) with
  | Some r => cor_da_linha r
  | None => if (8 * 60 <=? i) && (i <? 18 * 60) then "lightblue" else "gray"
  end.

(** ** The tooltip of the canvas: [on_mouse_move] *)

Inductive tooltip :=
  | Showtip (text : string) (x y : Z)
  | Hidetip.

(** [f"{hora:02d}:{minuto:02d}"]; Python pads an integer with a zero to
    two characters as [printf] does. *)
Definition formato_hora (hora minuto : Z) : string :=
  printf_02d (Some hora) +:+ ":" +:+ printf_02d (Some minuto).

(** [on_mouse_move]; [divmod] is the floor division. *)
Definition on_mouse_move (x x_root y_root : Z) : tooltip :=
  if (0 <=? x) && (x <? 1440)
  then let '(hora, minuto) := (x / 60, x mod 60) in
       Showtip (formato_hora hora minuto) (x_root + 10) (y_root + 10)
  else Hidetip.

(** ** Day navigation

    [date + timedelta(days=1)] and [date - timedelta(days=1)] of
    Python's proleptic Gregorian calendar; outside 0001-01-01 ..
    9999-12-31 they raise [OverflowError] ([None]). *)
Definition bissexto (y : Z) : bool :=
  (y mod 4 =? 0) && (negb (y mod 100 =? 0) || (y mod 400 =? 0)).

Definition dias_no_mes (y m : Z) : Z :=
  if m =? 2 then (if bissexto y then 29 else 28)
  else if (m =? 4) || (m =? 6) || (m =? 9) || (m =? 11) then 30 else 31.

Definition data_valida (d : data) : Prop :=
  let '(y, m, dd) := d in
  1 <= y <= 9999 /\ 1 <= m <= 12 /\ 1 <= dd <= dias_no_mes y m.

Definition mais_um_dia (d : data) : option data :=
  let '(y, m, dd) := d in
  if dd <? dias_no_mes y m then Some (y, m, dd + 1)
  else if m <? 12 then Some (y, m + 1, 1)
  else if y <? 9999 then Some (y + 1, 1, 1)
  else None.

Definition menos_um_dia (d : data) : option data :=
  let '(y, m, dd) := d in
  if 1 <? dd then Some (y, m, dd - 1)
  else if 1 <? m then Some (y, m - 1, dias_no_mes y (m - 1))
  else if 1 <? y then Some (y - 1, 12, 31)
  else None.

(** The fields of [LogAtividade] the interface works on: the selected
    day and the number of pending [root.after] callbacks. *)
Record interface := Interface {
  data_selecionada : data;
  agendadas : nat
}.

(** What [atualizar_canvas] does to these fields: it ends with
    [self.root.after(1000, self.atualizar_canvas)]. *)
Definition reagendar (s : interface) : interface :=
  Interface (data_selecionada s) (S (agendadas s)).

(** [set_data] and [on_data_selecionada]: both store the day and call
    [atualizar_canvas]. *)
Definition set_data (nova_data : data) (s : interface) : interface :=
  reagendar (Interface nova_data (agendadas s)).

(** [dia_anterior] and [dia_proximo]; when the date arithmetic raises,
    the callback ends there and nothing is changed. *)
Definition dia_anterior (s : interface) : interface :=
  match menos_um_dia (data_selecionada s) with
  | Some d => set_data d s
  | None => s
  end.

Definition dia_proximo (s : interface) : interface :=
  match mais_um_dia (data_selecionada s) with
  | Some d => set_data d s
  | None => s
  end.

(** What the event loop of the window delivers. *)
Inductive evento :=
  | Temporizador                (* a pending [after] callback runs *)
  | BotaoAnterior
  | BotaoProximo
  | BotaoHoje (hoje : data)     (* [datetime.now().date()] *)
  | DataSelecionada (d : data). (* [self.cal.get_date()] *)

Definition passo (s : interface) (e : evento) : interface :=
  match e with
  | Temporizador =>
      match agendadas s with
      | O => s
      | S n => reagendar (Interface (data_selecionada s) n)
      end
  | BotaoAnterior => dia_anterior s
  | BotaoProximo => dia_proximo s
  | BotaoHoje hoje => set_data hoje s
  | DataSelecionada d => set_data d s
  end.

(** Whether the event reaches [atualizar_canvas] through [set_data] or
    [on_data_selecionada]. *)
Definition navega (s : interface) (e : evento) : bool :=
  match e with
  | Temporizador => false
  | BotaoAnterior => bool_decide (is_Some (menos_um_dia (data_selecionada s)))
  | BotaoProximo => bool_decide (is_Some (mais_um_dia (data_selecionada s)))
  | BotaoHoje _ | DataSelecionada _ => true
  end.

Fixpoint navegacoes (s : interface) (eventos : list evento) : nat :=
  match eventos with
  | [] => 0
  | e :: resto => ((if navega s e then 1 else 0) + navegacoes (passo s e) resto)%nat
  end.

(** ** Seconds counted on the calendar

    The direct second-difference of two timestamps, with no Julian day
    in it: days are numbered as [date.toordinal()] of Python's
    [datetime] numbers them (0001-01-01 is day 1 of the proleptic
    Gregorian calendar), by the days of the years before, of the months
    before and of the month, and a day has 86400 seconds. The
    difference of two such counts is what [datetime] subtraction
    gives. *)
Definition dias_antes_do_ano (y : Z) : Z :=
  let y' := y - 1 in y' * 365 + y' / 4 - y' / 100 + y' / 400.

Definition dias_antes_do_mes (y m : Z) : Z :=
  nth (Z.to_nat m) [0; 0; 31; 59; 90; 120; 151; 181; 212; 243; 273; 304; 334] 0
  + (if (2 <? m) && bissexto y then 1 else 0).

Definition toordinal (d : data) : Z :=
  let '(y, m, dd) := d in dias_antes_do_ano y + dias_antes_do_mes y m + dd.

Definition segundos_civis (t : datahora) : Z :=
  toordinal (date t) * 86400 + hora t * 3600 + minuto t * 60 + segundo t.

(** An interval still open that started at 23:50, looked at ten
    minutes past midnight of the next day. *)
Definition linha_aberta : Log.linha := Log.Linha 1 "Ativo" (instante 23 50 0) None.

Definition meia_noite_e_dez : datahora := DataHora 2024 1 2 0 10 0.

(** The commit after the INSERT of [registrar_status] raises; the
    commit of [registrar_programa] raises. *)
Definition falha_no_commit_log : falhas :=
  Falhas false false false false false true false false false.

Definition falha_no_commit_prog : falhas :=
  Falhas false false false false false false false true false.

(** Samples whose clock goes on, for the examples. *)
Definition amostras_dia : list amostra :=
  [ amostra_em 0 (janela "notepad.exe" "a.txt") (instante 9 0 0);
    amostra_em 1000 (janela "notepad.exe" "a.txt") (instante 9 0 5);
    amostra_em 400000 (janela "notepad.exe" "a.txt") (instante 9 10 0);
    amostra_em 0 (janela "chrome.exe" "b") (instante 9 20 0) ].

(** ** Properties of the series predicates *)

Section SeriesLemmas.
Context {L : Type} `{Intervalo L}.
Variable fecha : L -> bool.

Lemma encadeada_lookup (t : list L) (i : nat) (prev next : L) :
  encadeada fecha t ->
  t !! i = Some prev -> t !! S i = Some next ->
  (fecha prev = true -> termina prev = Some (comeca next))
  /\ (forall fim, termina prev = Some fim -> fim = comeca next).
Proof.
  revert i. induction t as [|a [|b t'] IH]; intros i Henc Hi HS.
  - discriminate.
  - destruct i; discriminate.
  - destruct Henc as (Hf & Hw & Hresto). destruct i as [|i].
    + simpl in Hi, HS. simplify_eq. auto.
    + apply (IH i Hresto); assumption.
Qed.

Lemma encadeada_snoc (pre : list L) (r r' n : L) :
  encadeada fecha (pre ++ [r]) ->
  comeca r' = comeca r ->
  (fecha r' = true -> termina r' = Some (comeca n)) ->
  (forall fim, termina r' = Some fim -> fim = comeca n) ->
  encadeada fecha (pre ++ [r'; n]).
Proof.
  intros Henc Hc Hf Hw. induction pre as [|a pre IH].
  - simpl. auto.
  - destruct pre as [|b pre].
    + simpl in *. rewrite Hc. destruct Henc as (? & ? & _). auto.
    + destruct Henc as (Hf' & Hw' & Hresto).
      change (encadeada fecha ((a :: b :: pre) ++ [r'; n])) with
        ((fecha a = true -> termina a = Some (comeca b))
         /\ (forall fim, termina a = Some fim -> fim = comeca b)
         /\ encadeada fecha ((b :: pre) ++ [r'; n])).
      auto.
Qed.

Lemma abertas_app (t u : list L) : abertas (t ++ u) = (abertas t + abertas u)%nat.
Proof. unfold abertas. by rewrite List.filter_app, length_app. Qed.

Lemma abertas_fechadas (t : list L) :
  Forall (fun x => aberta x = false) t -> abertas t = 0%nat.
Proof.
  unfold abertas. induction 1 as [|x t Hx _ IH]; [done|].
  simpl. by rewrite Hx.
Qed.
End SeriesLemmas.

(** ** The SQL statements on a table whose last row is the open one *)

Lemma update_log_fechadas agora s (t : list Log.linha) :
  Forall (fun x => aberta x = false) t -> update_log agora s t = t.
Proof.
  unfold update_log. induction 1 as [|x t Hx _ IH]; [done|].
  rewrite map_cons. f_equal; [|exact IH]. by rewrite Hx, andb_false_r.
Qed.

Lemma update_log_ultima agora (pre : list Log.linha) (r : Log.linha) :
  Forall (fun x => aberta x = false) pre -> termina r = None ->
  update_log agora (Log.status r) (pre ++ [r]) = pre ++ [encerrar agora r].
Proof.
  intros Hpre Hr. unfold update_log. rewrite map_app.
  fold (update_log agora (Log.status r) pre). rewrite update_log_fechadas by done.
  simpl. rewrite bool_decide_true by done. unfold aberta. by rewrite Hr.
Qed.

Lemma update_prog_fechadas agora (a : string) ut ini (t : list Prog.linha) :
  a <> "" ->
  Forall (fun x => fecha_prog x = true -> aberta x = false) t ->
  update_prog agora (Some a) ut ini t = t.
Proof.
  intros Ha. unfold update_prog. induction 1 as [|x t Hx _ IH]; [done|].
  rewrite map_cons. f_equal; [|exact IH].
  assert (prog_casa (Some a) ut ini x = false) as ->; [|done].
  unfold prog_casa. destruct (aberta x) eqn:Hab; [|by rewrite andb_false_r].
  unfold fecha_prog, truthy in Hx.
  destruct (Prog.nome_programa x) as [p|] eqn:Hp; simpl; [|done].
  destruct (bool_decide (p = "")) eqn:Hvazio.
  - apply bool_decide_eq_true in Hvazio. subst p.
    rewrite bool_decide_false by congruence. done.
  - simpl in Hx. specialize (Hx eq_refl). discriminate.
Qed.

Lemma update_prog_ultima agora (a u : string) t0 (pre : list Prog.linha) (r : Prog.linha) :
  a <> "" ->
  Forall (fun x => fecha_prog x = true -> aberta x = false) pre ->
  Prog.nome_programa r = Some a -> Prog.nome_documento r = Some u ->
  Prog.data_hora_inicio r = t0 -> termina r = None ->
  update_prog agora (Some a) (Some u) (Some t0) (pre ++ [r]) = pre ++ [encerrar agora r].
Proof.
  intros Ha Hpre Hn Hd Hi Hr. unfold update_prog. rewrite map_app.
  fold (update_prog agora (Some a) (Some u) (Some t0) pre).
  rewrite update_prog_fechadas by done. simpl.
  unfold prog_casa, aberta. rewrite Hn, Hd, Hi, Hr. simpl.
  by rewrite !bool_decide_true by done.
Qed.

(** ** The tables after a call of the store *)

Lemma executar_log fe fc stmt b :
  log_atividade (executar fe fc (em_log stmt) b)
  = if fe then log_atividade b else stmt (log_atividade b).
Proof. unfold executar, cursor_execute, conn_commit. by destruct fe, fc. Qed.

Lemma executar_log_programas fe fc stmt b :
  programas_documentos (executar fe fc (em_log stmt) b) = programas_documentos b.
Proof. unfold executar, cursor_execute, conn_commit. by destruct fe, fc. Qed.

(** The rows of [log_atividade] after [registrar_status]: a commit that
    raises leaves them as a commit that succeeds does. *)
Lemma registrar_status_log f agora novo_status self :
  log_atividade (db (registrar_status f agora novo_status self))
  = if bool_decide (status_atual self ≠ Some novo_status) then
      let t0 := log_atividade (db self) in
      let t1 := match status_atual self with
                | Some s => if truthy (Some s)
                            then (if falha_update_log f then t0 else update_log agora s t0)
                            else t0
                | None => t0
                end in
      if falha_insert_log f then t1 else insert_log novo_status agora t1
    else log_atividade (db self).
Proof.
  unfold registrar_status. case_bool_decide; [|done]. cbn [db].
  rewrite executar_log.
  destruct (status_atual self) as [s|]; [destruct (truthy (Some s))|];
    by rewrite ?executar_log.
Qed.

Lemma registrar_status_programas f agora novo_status self :
  programas_documentos (db (registrar_status f agora novo_status self))
  = programas_documentos (db self).
Proof.
  unfold registrar_status. case_bool_decide; [|done]. cbn [db].
  rewrite executar_log_programas.
  destruct (status_atual self) as [s|]; [destruct (truthy (Some s))|];
    by rewrite ?executar_log_programas.
Qed.

Lemma registrar_status_campos f agora novo_status self :
  limite_ocioso (registrar_status f agora novo_status self) = limite_ocioso self
  /\ ultimo_app (registrar_status f agora novo_status self) = ultimo_app self
  /\ ultimo_titulo (registrar_status f agora novo_status self) = ultimo_titulo self
  /\ inicio_app (registrar_status f agora novo_status self) = inicio_app self.
Proof. unfold registrar_status. by case_bool_decide. Qed.

(** What [registrar_programa] returns when nothing raises. *)
Lemma registrar_programa_sem_falhas agora app titulo self :
  registrar_programa sem_falhas agora app titulo self
  = Retorna
      (Self (Banco (log_atividade (db self))
                   (insert_prog app titulo agora
                      (if truthy (ultimo_app self) && bool_decide (is_Some (inicio_app self))
                       then update_prog agora (ultimo_app self) (ultimo_titulo self)
                              (inicio_app self) (programas_documentos (db self))
                       else programas_documentos (db self)))
                   false)
            (status_atual self) (limite_ocioso self) app titulo (Some agora)).
Proof.
  unfold registrar_programa, cursor_execute, conn_commit, em_prog.
  cbn [sem_falhas falha_cursor_prog falha_update_prog falha_insert_prog
       falha_commit_prog falha_print_prog].
  by destruct (truthy (ultimo_app self) && bool_decide (is_Some (inicio_app self))).
Qed.

(** ** The tracker keeps the series well formed *)

Lemma truthy_Some (s : string) : truthy (Some s) = true <-> s <> "".
Proof.
  unfold truthy. case_bool_decide; simpl; split; intros; congruence.
Qed.

Lemma registrar_status_prog f agora novo_status self :
  inv_prog self -> inv_prog (registrar_status f agora novo_status self).
Proof.
  unfold inv_prog. rewrite registrar_status_programas.
  by destruct (registrar_status_campos f agora novo_status self) as (_ & -> & -> & ->).
Qed.

Lemma registrar_status_inv_log agora novo_status self :
  novo_status <> "" -> inv_log self ->
  inv_log (registrar_status sem_falhas agora novo_status self).
Proof.
  intros Hnovo Hinv.
  destruct (decide (status_atual self = Some novo_status)) as [Higual|Hmuda].
  { unfold registrar_status. by rewrite bool_decide_false by (intros Hne; by apply Hne). }
  unfold inv_log. rewrite registrar_status_log.
  assert (status_atual (registrar_status sem_falhas agora novo_status self)
          = Some novo_status) as ->
    by (unfold registrar_status; by rewrite bool_decide_true by done).
  rewrite bool_decide_true by done. unfold inv_log in Hinv.
  split; [by apply truthy_Some|].
  destruct (status_atual self) as [s|].
  - destruct Hinv as (Hs & pre & r & Ht & Hst & Hr & Hpre & Henc).
    rewrite Hs.
    cbn [falha_update_log falha_insert_log sem_falhas]. rewrite Ht. subst s.
    rewrite update_log_ultima by done. unfold insert_log.
    exists (pre ++ [encerrar agora r]), (Log.Linha (S (length (pre ++ [encerrar agora r]))) novo_status agora None).
    repeat split; try done.
    + apply Forall_app. split; [done|]. by repeat constructor.
    + rewrite <- app_assoc. simpl. rewrite Ht in Henc.
      apply (encadeada_snoc _ pre r); try done. intros fim Hfim. simpl in Hfim |- *. congruence.
  - cbn [falha_insert_log sem_falhas]. rewrite Hinv. unfold insert_log. simpl.
    exists [], (Log.Linha 1 novo_status agora None). by repeat split.
Qed.

Lemma registrar_programa_log f agora app titulo self :
  inv_log self -> inv_log (objeto (registrar_programa f agora app titulo self)).
Proof.
  unfold registrar_programa, cursor_execute, conn_commit, em_prog. intros Hinv.
  repeat (case_match; simplify_eq; simpl; try done).
Qed.

Lemma registrar_programa_inv agora app titulo self :
  par_de_foco app titulo -> inv_prog self ->
  exists self', registrar_programa sem_falhas agora app titulo self = Retorna self'
                /\ inv_prog self'.
Proof.
  intros Hpar (Hult & Hinv). rewrite registrar_programa_sem_falhas.
  destruct (inicio_app self) as [t0|] eqn:Hini.
  - destruct Hinv as (pre & r & Ht & Hn & Hd & Hi & Hr & Hpre & Henc).
    destruct (truthy (ultimo_app self)) eqn:Htr; simpl.
    + destruct (ultimo_app self) as [a|] eqn:Hua; [|done].
      apply truthy_Some in Htr.
      destruct Hult as [[? _]|[_ [u Hu]]]; [done|]. rewrite Hu in *.
      eexists. split; [reflexivity|]. unfold inv_prog. simpl. split; [done|].
      rewrite Ht, (update_prog_ultima agora a u t0) by done. unfold insert_prog.
      eexists (pre ++ [encerrar agora r]), _.
      split; [reflexivity|]. cbn [Prog.nome_programa Prog.nome_documento Prog.data_hora_inicio].
      repeat split; try done.
      * apply Forall_app. split; [done|]. by repeat constructor.
      * rewrite <- app_assoc. rewrite Ht in Henc.
        apply (encadeada_snoc _ pre r); try done.
        intros fim Hfim. simpl in Hfim |- *. congruence.
    + eexists. split; [reflexivity|]. unfold inv_prog. simpl. split; [done|].
      rewrite Ht. unfold insert_prog. eexists (pre ++ [r]), _.
      split; [reflexivity|]. cbn [Prog.nome_programa Prog.nome_documento Prog.data_hora_inicio].
      repeat split; try done.
      * apply Forall_app. split; [done|]. repeat constructor.
        unfold fecha_prog. rewrite Hn, Htr. done.
      * rewrite <- app_assoc. rewrite Ht in Henc.
        apply (encadeada_snoc _ pre r); try done.
        -- unfold fecha_prog. rewrite Hn, Htr. done.
        -- intros fim Hfim. congruence.
  - destruct Hinv as [Hinv _].
    rewrite andb_false_r. eexists. split; [reflexivity|].
    unfold inv_prog. simpl. split; [done|]. rewrite Hinv. unfold insert_prog. simpl.
    eexists [], _. split; [reflexivity|]. simpl. by repeat split.
Qed.

Lemma get_focused_app_par l :
  par_de_foco (get_focused_app l).1 (get_focused_app l).2.
Proof.
  unfold get_focused_app, par_de_foco.
  destruct (hwnd l =? 0); simpl; [by left|].
  destruct (nome_processo l), (texto_janela l); simpl; eauto.
Qed.

Lemma classificar_truthy self a : classificar self a <> "".
Proof. unfold classificar. by case_match. Qed.

Lemma tick_inv a self :
  inv self -> exists self', tick sem_falhas a self = Retorna self' /\ inv self'.
Proof.
  intros [Hlog Hprog]. unfold tick.
  pose proof (get_focused_app_par (foco a)) as Hpar.
  destruct (get_focused_app (foco a)) as [app titulo]. simpl in Hpar.
  set (self1 := registrar_status sem_falhas (agora_status a) (classificar self a) self).
  assert (inv_log self1) as Hlog1
    by (apply registrar_status_inv_log; [apply classificar_truthy|done]).
  assert (inv_prog self1) as Hprog1 by by apply registrar_status_prog.
  destruct (bool_decide (app ≠ ultimo_app self1) || bool_decide (titulo ≠ ultimo_titulo self1)).
  - destruct (registrar_programa_inv (agora_programa a) app titulo self1 Hpar Hprog1)
      as (self' & Heq & Hinv').
    exists self'. split; [done|]. split; [|done].
    pose proof (registrar_programa_log sem_falhas (agora_programa a) app titulo self1 Hlog1) as Hl.
    by rewrite Heq in Hl.
  - by exists self1.
Qed.

Lemma monitorar_inv amostras self :
  inv self ->
  exists self', monitorar (map sem_falha amostras) self = Retorna self' /\ inv self'.
Proof.
  revert self. induction amostras as [|a amostras IH]; intros self Hinv.
  - by exists self.
  - simpl. destruct (tick_inv a self Hinv) as (self1 & -> & Hinv1). by apply IH.
Qed.

Lemma inv_novo : inv (novo banco_vazio).
Proof. split; [done|]. split; [by left|done]. Qed.

Lemma executar_amostras_inv amostras : inv (executar_amostras amostras).
Proof.
  unfold executar_amostras.
  destruct (monitorar_inv amostras _ inv_novo) as (self' & -> & Hinv). done.
Qed.

(** A run without failures never lets an exception out of the loop. *)
Lemma executar_amostras_retorna amostras :
  monitorar (map sem_falha amostras) (novo banco_vazio)
  = Retorna (executar_amostras amostras).
Proof.
  unfold executar_amostras.
  destruct (monitorar_inv amostras _ inv_novo) as (self' & -> & _). done.
Qed.

Lemma inv_log_encadeada self : inv_log self -> encadeada fecha_log (log_atividade (db self)).
Proof.
  unfold inv_log. destruct (status_atual self).
  - intros (_ & pre & r & -> & _ & _ & _ & Henc). done.
  - intros ->. done.
Qed.

Lemma inv_prog_encadeada self :
  inv_prog self -> encadeada fecha_prog (programas_documentos (db self)).
Proof.
  unfold inv_prog. intros [_ Hinv]. destruct (inicio_app self).
  - destruct Hinv as (pre & r & -> & _ & _ & _ & _ & _ & Henc). done.
  - destruct Hinv as [-> _]. done.
Qed.

Lemma inv_log_abertas self : inv_log self -> (abertas (log_atividade (db self)) <= 1)%nat.
Proof.
  unfold inv_log. destruct (status_atual self).
  - intros (_ & pre & r & -> & _ & Hr & Hpre & _).
    rewrite abertas_app, abertas_fechadas by done. unfold abertas. simpl.
    case_match; simpl; lia.
  - intros ->. unfold abertas. simpl. lia.
Qed.

(** ** Open intervals *)

(** In every run from a new database the status series has at most one
    open interval. *)
Lemma status_no_maximo_uma_aberta (amostras : list amostra) :
  (abertas (log_atividade (db (executar_amostras amostras))) <= 1)%nat.
Proof. apply inv_log_abertas, executar_amostras_inv. Qed.

(** C2: once the focus has gone from a window to no window and on to
    another window, [programas_documentos] holds two open intervals. *)
Theorem duas_abertas_apos_sem_foco :
  abertas (programas_documentos (db (executar_amostras amostras_sem_foco))) = 2%nat.
Proof. vm_compute. reflexivity. Qed.

(** C7: the interval stored for the no-focus pair is not closed when
    another pair is sampled; its end stays NULL while its successor is
    opened. *)
Theorem sem_foco_nunca_fechado :
  programas_documentos (db (executar_amostras amostras_sem_foco))
  = [ Prog.Linha 1 (Some "notepad.exe") (Some "a.txt") (instante 9 0 0)
                 (Some (instante 9 0 5));
      Prog.Linha 2 None None (instante 9 0 5) None;
      Prog.Linha 3 (Some "chrome.exe") (Some "b") (instante 9 0 10) None ].
Proof. vm_compute. reflexivity. Qed.

(** An interval without a program name is never closed, in any state:
    the guard of [registrar_programa] skips the UPDATE. *)
Lemma registrar_programa_sem_app f agora app titulo self :
  truthy (ultimo_app self) = false ->
  falha_cursor_prog f = false -> falha_insert_prog f = false ->
  programas_documentos (db (objeto (registrar_programa f agora app titulo self)))
  = programas_documentos (db self)
    ++ [Prog.Linha (S (length (programas_documentos (db self)))) app titulo agora None].
Proof.
  intros Hu Hc Hf. unfold registrar_programa, cursor_execute, conn_commit, em_prog.
  rewrite Hu, Hc, Hf. cbn [andb].
  by destruct (falha_commit_prog f), (falha_print_prog f).
Qed.

(** ** Closing an open interval *)

Lemma sql_eq_true {A} `{EqDecision A} (coluna parametro : option A) :
  sql_eq coluna parametro = true <-> coluna = parametro /\ is_Some parametro.
Proof.
  unfold sql_eq. destruct coluna as [x|], parametro as [y|]; simpl.
  - rewrite bool_decide_eq_true. split; [intros ->; eauto | intros [? _]; congruence].
  - split; [done | by intros [? _]].
  - split; [done | by intros [? _]].
  - split; [done | intros [_ [? ?]]; done].
Qed.

Lemma prog_casa_chave app titulo inicio r :
  prog_casa app titulo inicio r = true <-> chave_prog app titulo inicio r.
Proof.
  unfold prog_casa, chave_prog. rewrite !andb_true_iff, !sql_eq_true.
  unfold aberta. simpl. destruct (Prog.data_hora_final r); split.
  - intros (_ & ?). done.
  - intros (_ & _ & _ & _ & _ & ?). done.
  - intros ((((? & ?) & ? & ?) & ? & ?) & _). done.
  - intros (? & ? & ? & ? & ? & _). repeat split; try done.
Qed.

Lemma log_casa_chave st r :
  bool_decide (Log.status r = st) && aberta r = true <-> chave_log st r.
Proof.
  unfold chave_log. rewrite andb_true_iff, bool_decide_eq_true.
  unfold aberta. simpl. destruct (Log.data_hora_final r); split; intros [? ?]; done.
Qed.

Lemma update_prog_lookup agora app titulo inicio (t : list Prog.linha) i r :
  t !! i = Some r ->
  update_prog agora app titulo inicio t !! i
  = Some (if decide (chave_prog app titulo inicio r) then encerrar agora r else r).
Proof.
  intros Hi. unfold update_prog. rewrite list_lookup_fmap, Hi. simpl. f_equal.
  pose proof (prog_casa_chave app titulo inicio r) as Hiff.
  destruct (prog_casa app titulo inicio r); case_decide as Hk; try done.
  - exfalso. apply Hk, Hiff. done.
  - apply Hiff in Hk. done.
Qed.

Lemma update_log_lookup agora st (t : list Log.linha) i r :
  t !! i = Some r ->
  update_log agora st t !! i
  = Some (if decide (chave_log st r) then encerrar agora r else r).
Proof.
  intros Hi. unfold update_log. rewrite list_lookup_fmap, Hi. simpl. f_equal.
  pose proof (log_casa_chave st r) as Hiff.
  destruct (bool_decide (Log.status r = st) && aberta r); case_decide as Hk; try done.
  - exfalso. apply Hk, Hiff. done.
  - apply Hiff in Hk. done.
Qed.

Lemma update_prog_idempotente a1 a2 app titulo inicio (t : list Prog.linha) :
  update_prog a2 app titulo inicio (update_prog a1 app titulo inicio t)
  = update_prog a1 app titulo inicio t.
Proof.
  unfold update_prog. rewrite map_map. apply map_ext. intros r.
  destruct (prog_casa app titulo inicio r) eqn:Hr; [|by rewrite Hr].
  unfold prog_casa, aberta. simpl. by rewrite !andb_false_r.
Qed.

Lemma update_log_idempotente a1 a2 st (t : list Log.linha) :
  update_log a2 st (update_log a1 st t) = update_log a1 st t.
Proof.
  unfold update_log. rewrite map_map. apply map_ext. intros r.
  destruct (bool_decide (Log.status r = st) && aberta r) eqn:Hr; [|by rewrite Hr].
  unfold aberta. simpl. by rewrite !andb_false_r.
Qed.

Lemma update_prog_sem_chave agora app titulo inicio (t : list Prog.linha) :
  (forall r, r ∈ t -> ~ chave_prog app titulo inicio r) ->
  update_prog agora app titulo inicio t = t.
Proof.
  intros Hnone. apply list_eq. intros i.
  destruct (t !! i) as [r|] eqn:Hi.
  - rewrite (update_prog_lookup _ _ _ _ _ _ r Hi).
    rewrite decide_False; [done|]. apply Hnone. by eapply list_elem_of_lookup_2.
  - unfold update_prog. by rewrite list_lookup_fmap, Hi.
Qed.

Lemma update_log_sem_chave agora st (t : list Log.linha) :
  (forall r, r ∈ t -> ~ chave_log st r) -> update_log agora st t = t.
Proof.
  intros Hnone. apply list_eq. intros i.
  destruct (t !! i) as [r|] eqn:Hi.
  - rewrite (update_log_lookup _ _ _ _ r Hi).
    rewrite decide_False; [done|]. apply Hnone. by eapply list_elem_of_lookup_2.
  - unfold update_log. by rewrite list_lookup_fmap, Hi.
Qed.

(** In a run from a new database, when the guard of
    [registrar_programa] lets the UPDATE through, the last row is the
    one row with the tracker's key and the only row the UPDATE changes. *)
Lemma update_prog_na_execucao (amostras : list amostra) (agora : datahora) :
  let self := executar_amostras amostras in
  truthy (ultimo_app self) = true ->
  exists pre r,
    programas_documentos (db self) = pre ++ [r]
    /\ chave_prog (ultimo_app self) (ultimo_titulo self) (inicio_app self) r
    /\ update_prog agora (ultimo_app self) (ultimo_titulo self) (inicio_app self)
         (pre ++ [r]) = pre ++ [encerrar agora r].
Proof.
  intros self Htr. destruct (executar_amostras_inv amostras) as [_ [Hpar Hinv]].
  fold self in Hpar, Hinv.
  destruct (ultimo_app self) as [a|] eqn:Hua; [|done].
  destruct Hpar as [[? _]|[_ [u Hu]]]; [done|].
  destruct (inicio_app self) as [t0|]; [|by destruct Hinv].
  destruct Hinv as (pre & r & Ht & Hn & Hd & Hi & Hr & Hpre & _).
  exists pre, r. rewrite Hu in *. split; [done|]. split.
  - unfold chave_prog. rewrite Hn, Hd, Hi. repeat split; eauto.
  - apply update_prog_ultima; try done. by apply truthy_Some.
Qed.

(** C3 (as stated, refuted): a new session finds the open "Ativo"
    interval of an earlier session, started at 08:00:00, and opens its
    own at 09:00:00; when the user goes idle at 09:00:10 the UPDATE
    closes both, although the interval being closed started at
    09:00:00. *)
Lemma update_log_fecha_outro_inicio :
  log_atividade
    (db (objeto (monitorar (map sem_falha amostras_nova_sessao) (novo banco_sessao_anterior))))
  = [ Log.Linha 1 "Ativo" (instante 8 0 0) (Some (instante 9 0 10));
      Log.Linha 2 "Ativo" (instante 9 0 0) (Some (instante 9 0 10));
      Log.Linha 3 "Ocioso" (instante 9 0 10) None ].
Proof. vm_compute. reflexivity. Qed.

(** C3 (amended): the UPDATE of [programas_documentos] sets the end on
    exactly the open rows whose program, document and start equal the
    parameters and leaves every other row as it is; it changes nothing
    when no row has the key, and running it again changes nothing more;
    in a run from a new database the row it closes is the unique row
    with the tracker's key. The UPDATE of [log_atividade] is keyed by
    the status alone: it sets the end on every open row of that status,
    whatever its start, leaves the others as they are, changes nothing
    when no open row has the status, and is idempotent. *)
Theorem fechamento_por_chave :
  (forall agora app titulo inicio (t : list Prog.linha) i r,
      t !! i = Some r ->
      update_prog agora app titulo inicio t !! i
      = Some (if decide (chave_prog app titulo inicio r) then encerrar agora r else r))
  /\ (forall agora app titulo inicio (t : list Prog.linha),
      (forall r, r ∈ t -> ~ chave_prog app titulo inicio r) ->
      update_prog agora app titulo inicio t = t)
  /\ (forall a1 a2 app titulo inicio (t : list Prog.linha),
      update_prog a2 app titulo inicio (update_prog a1 app titulo inicio t)
      = update_prog a1 app titulo inicio t)
  /\ (forall amostras agora,
      let self := executar_amostras amostras in
      truthy (ultimo_app self) = true ->
      exists pre r,
        programas_documentos (db self) = pre ++ [r]
        /\ chave_prog (ultimo_app self) (ultimo_titulo self) (inicio_app self) r
        /\ update_prog agora (ultimo_app self) (ultimo_titulo self) (inicio_app self)
             (pre ++ [r]) = pre ++ [encerrar agora r])
  /\ (forall agora st (t : list Log.linha) i r,
      t !! i = Some r ->
      update_log agora st t !! i
      = Some (if decide (chave_log st r) then encerrar agora r else r))
  /\ (forall agora st (t : list Log.linha),
      (forall r, r ∈ t -> ~ chave_log st r) -> update_log agora st t = t)
  /\ (forall a1 a2 st (t : list Log.linha),
      update_log a2 st (update_log a1 st t) = update_log a1 st t).
Proof.
  split; [exact update_prog_lookup|].
  split; [exact update_prog_sem_chave|].
  split; [exact update_prog_idempotente|].
  split; [exact update_prog_na_execucao|].
  split; [exact update_log_lookup|].
  split; [exact update_log_sem_chave|].
  exact update_log_idempotente.
Qed.

Lemma fechamento_por_chave_witness :
  update_prog (instante 9 0 5) (Some "notepad.exe") (Some "a.txt") (Some (instante 9 0 0))
    programas_exemplo
  = [ Prog.Linha 1 (Some "notepad.exe") (Some "a.txt") (instante 8 0 0) None;
      Prog.Linha 2 (Some "notepad.exe") (Some "a.txt") (instante 9 0 0)
                 (Some (instante 9 0 5)) ]
  /\ update_log (instante 9 0 5) "Ocioso" log_exemplo = log_exemplo.
Proof.
  pose proof fechamento_por_chave as (_ & _ & _ & _ & _ & Hlog & _).
  split; [reflexivity|].
  apply (Hlog (instante 9 0 5) "Ocioso" log_exemplo).
  intros r Hr [Hst _]. apply list_elem_of_singleton in Hr. subst r. discriminate Hst.
Defined.

(** ** Chaining of successive intervals *)

(** One call of [registrar_status], in any state and whatever fails:
    an end it writes is its clock reading, which is also the start of
    the interval it opens. *)
Lemma registrar_status_um_instante f agora novo_status self i r r' fim :
  log_atividade (db self) !! i = Some r -> Log.data_hora_final r = None ->
  log_atividade (db (registrar_status f agora novo_status self)) !! i = Some r' ->
  Log.data_hora_final r' = Some fim ->
  fim = agora
  /\ (falha_insert_log f = false ->
      last (log_atividade (db (registrar_status f agora novo_status self)))
      = Some (Log.Linha (S (length (log_atividade (db self)))) novo_status agora None)).
Proof.
  intros Hi Hr Hi' Hfim. rewrite registrar_status_log in Hi' |- *.
  case_bool_decide as Hmuda; [|simplify_eq].
  cbn zeta in *.
  set (t0 := log_atividade (db self)) in *.
  set (t1 := match status_atual self with
             | Some s => if truthy (Some s)
                         then (if falha_update_log f then t0 else update_log agora s t0)
                         else t0
             | None => t0
             end) in *.
  assert (length t1 = length t0) as Hlen.
  { subst t1. destruct (status_atual self) as [s|]; [|done].
    destruct (truthy (Some s)); [|done].
    destruct (falha_update_log f); [done|]. unfold update_log. by rewrite length_map. }
  assert (t1 !! i = Some r \/ t1 !! i = Some (encerrar agora r)) as Ht1.
  { subst t1. destruct (status_atual self) as [s|]; [|by left].
    destruct (truthy (Some s)); [|by left].
    destruct (falha_update_log f); [by left|].
    rewrite (update_log_lookup _ _ _ _ r Hi). case_decide; eauto. }
  assert (t1 !! i = Some r') as Hr'.
  { revert Hi'. destruct (falha_insert_log f); [done|]. unfold insert_log.
    destruct Ht1 as [Ht1|Ht1];
      rewrite (lookup_app_l_Some _ _ _ _ Ht1); intros; by simplify_eq. }
  split.
  - destruct Ht1 as [Ht1|Ht1]; rewrite Ht1 in Hr'; simplify_eq; simpl in Hfim; congruence.
  - intros Hins. rewrite Hins. unfold insert_log. by rewrite last_snoc, Hlen.
Qed.

(** The same for [registrar_programa]. *)
Lemma registrar_programa_um_instante agora app titulo self i r r' fim :
  programas_documentos (db self) !! i = Some r -> Prog.data_hora_final r = None ->
  programas_documentos
    (db (objeto (registrar_programa sem_falhas agora app titulo self))) !! i = Some r' ->
  Prog.data_hora_final r' = Some fim ->
  fim = agora
  /\ last (programas_documentos
             (db (objeto (registrar_programa sem_falhas agora app titulo self))))
     = Some (Prog.Linha (S (length (programas_documentos (db self)))) app titulo agora None).
Proof.
  intros Hi Hr Hi' Hfim. rewrite registrar_programa_sem_falhas in Hi' |- *.
  set (t0 := programas_documentos (db self)) in *.
  destruct (truthy (ultimo_app self) && bool_decide (is_Some (inicio_app self))).
  - cbn [objeto db programas_documentos] in *. unfold insert_prog in *. split.
    + pose proof (update_prog_lookup agora (ultimo_app self) (ultimo_titulo self)
                    (inicio_app self) t0 i r Hi) as Hup.
      rewrite (lookup_app_l_Some _ _ _ _ Hup) in Hi'. simplify_eq.
      case_decide; simpl in Hfim; congruence.
    + rewrite last_snoc. unfold update_prog. by rewrite length_map.
  - cbn [objeto db programas_documentos] in *. unfold insert_prog in *. split.
    + rewrite (lookup_app_l_Some _ _ _ _ Hi) in Hi'. simplify_eq; congruence.
    + by rewrite last_snoc.
Qed.

(** C1 (as stated, refuted): the first tick of a new session opens its
    status interval at 09:00:00 and closes nothing; the interval that
    the earlier session left open at 08:00:00 precedes it with no end. *)
Lemma nova_sessao_nao_encadeia :
  log_atividade
    (db (objeto (monitorar (map sem_falha amostras_primeiro_tick)
                   (novo banco_sessao_anterior))))
  = [ Log.Linha 1 "Ativo" (instante 8 0 0) None;
      Log.Linha 2 "Ativo" (instante 9 0 0) None ].
Proof. vm_compute. reflexivity. Qed.

(** C1 (amended): in every run of the tracker from a new database in
    which no statement and no commit fails, whatever the samples and
    the clock readings (two ticks may fall in the same second),
    successive status intervals chain exactly: the
    end of each one is the start of the next. Successive focus
    intervals chain in the same way: an end that was written is the
    start of the next interval, and every interval of a window (a
    program name that is not empty) that has a successor has its end
    written. In any state, one call of [registrar_status] or
    [registrar_programa] in which nothing fails and that writes an end
    to an open interval writes the start of the interval it opens. *)
Theorem encadeamento_das_series (amostras : list amostra) (i : nat) :
  let self := executar_amostras amostras in
  (forall prev next : Log.linha,
      log_atividade (db self) !! i = Some prev ->
      log_atividade (db self) !! S i = Some next ->
      Log.data_hora_final prev = Some (Log.data_hora next))
  /\ (forall prev next : Prog.linha,
      programas_documentos (db self) !! i = Some prev ->
      programas_documentos (db self) !! S i = Some next ->
      (forall fim, Prog.data_hora_final prev = Some fim ->
                   fim = Prog.data_hora_inicio next)
      /\ (truthy (Prog.nome_programa prev) = true ->
          Prog.data_hora_final prev = Some (Prog.data_hora_inicio next)))
  /\ (forall agora novo_status (antes : LogAtividade) (r r' : Log.linha) fim,
      let depois := registrar_status sem_falhas agora novo_status antes in
      log_atividade (db antes) !! i = Some r -> Log.data_hora_final r = None ->
      log_atividade (db depois) !! i = Some r' -> Log.data_hora_final r' = Some fim ->
      exists next, last (log_atividade (db depois)) = Some next
                   /\ Log.data_hora next = fim)
  /\ (forall agora app titulo (antes : LogAtividade) (r r' : Prog.linha) fim,
      let depois := objeto (registrar_programa sem_falhas agora app titulo antes) in
      programas_documentos (db antes) !! i = Some r -> Prog.data_hora_final r = None ->
      programas_documentos (db depois) !! i = Some r' ->
      Prog.data_hora_final r' = Some fim ->
      exists next, last (programas_documentos (db depois)) = Some next
                   /\ Prog.data_hora_inicio next = fim).
Proof.
  intros self. destruct (executar_amostras_inv amostras) as [Hlog Hprog].
  fold self in Hlog, Hprog. split; [|split; [|split]]; cycle 2.
  - intros agora novo_status antes r r' fim depois Hi Hr Hi' Hfim.
    destruct (registrar_status_um_instante _ _ _ _ _ _ _ _ Hi Hr Hi' Hfim) as [-> Hlast].
    eexists. split; [by apply Hlast|done].
  - intros agora app titulo antes r r' fim depois Hi Hr Hi' Hfim.
    destruct (registrar_programa_um_instante _ _ _ _ _ _ _ _ Hi Hr Hi' Hfim) as [-> Hlast].
    eexists. split; [exact Hlast|done].
  - intros prev next Hi HS.
    by apply (encadeada_lookup fecha_log _ i prev next (inv_log_encadeada _ Hlog)).
  - intros prev next Hi HS.
    destruct (encadeada_lookup fecha_prog _ i prev next
                (inv_prog_encadeada _ Hprog) Hi HS) as [Hfecha Hescrito].
    split; [exact Hescrito | exact Hfecha].
Qed.

Lemma encadeamento_das_series_witness :
  Log.data_hora_final (Log.Linha 1 "Ativo" (instante 9 0 0) (Some (instante 9 10 0)))
  = Some (instante 9 10 0)
  /\ Prog.data_hora_final
       (Prog.Linha 1 (Some "notepad.exe") (Some "a.txt") (instante 9 0 0)
                   (Some (instante 9 10 0)))
     = Some (instante 9 10 0).
Proof.
  pose proof (encadeamento_das_series amostras_trabalho 0) as (Hlog & Hprog & _).
  split.
  - exact (Hlog _ (Log.Linha 2 "Ocioso" (instante 9 10 0) None) eq_refl eq_refl).
  - exact (proj2 (Hprog _ (Prog.Linha 2 (Some "chrome.exe") (Some "b") (instante 9 10 0) None)
                   eq_refl eq_refl) eq_refl).
Defined.

(** ** Store failures *)


Lemma registrar_status_pendente f agora novo_status self :
  status_atual self <> Some novo_status -> falha_insert_log f = false ->
  pendente (db (registrar_status f agora novo_status self)) = falha_commit_insert_log f.
Proof.
  intros Hmuda Hins. unfold registrar_status. rewrite bool_decide_true by done.
  cbn [db]. unfold executar at 1, cursor_execute at 1, conn_commit at 1. rewrite Hins.
  by destruct (falha_commit_insert_log f).
Qed.



(** ** The per-minute colours *)

Lemma range_vazio (a b : Z) : b <= a -> range a b = [].
Proof. intros Hab. unfold range. by replace (Z.to_nat (b - a)) with 0%nat by lia. Qed.

(** C9 (as stated, refuted): slot 542, the minute of the end, is
    coloured as active too. *)
Lemma nove_horas_slot_542 :
  linha_do_tempo dia_exemplo (instante 12 0 0) (log_nove_horas 0 0) !! 542%nat
  = Some "green".
Proof. vm_compute. reflexivity. Qed.

(** C9 (amended): for a day whose only interval is "Ativo" from 09:00
    to 09:02, the slots 540, 541 and 542 are coloured as active (the
    minute of the end is included); every other slot from 08:00 to
    17:59 has the working-hours colour and the rest has no mark. *)
Theorem nove_horas_cores (agora : datahora) (s1 s2 : Z) :
  linha_do_tempo dia_exemplo agora (log_nove_horas s1 s2)
  = replicate 480 "gray" ++ replicate 60 "lightblue" ++ replicate 3 "green"
    ++ replicate 537 "lightblue" ++ replicate 360 "gray".
Proof. vm_compute. reflexivity. Qed.

(** C10: an interval that starts on the selected day and whose end (or
    "now" when it is open) has an earlier minute of the day than its
    start colours no slot: the colours are as if the interval was not
    in the table. *)
Theorem intervalo_invertido_nao_pinta (hoje : data) (agora : datahora)
  (r : Log.linha) (t1 t2 : list Log.linha) (colors : list string) :
  date (Log.data_hora r) = hoje ->
  minuto_do_dia (fim_efetivo agora r) < minuto_do_dia (Log.data_hora r) ->
  pintar_linha hoje agora colors r = colors
  /\ linha_do_tempo hoje agora (t1 ++ r :: t2) = linha_do_tempo hoje agora (t1 ++ t2).
Proof.
  intros Hdia Hmin.
  assert (forall cs, pintar_linha hoje agora cs r = cs) as Hr.
  { intros cs. unfold pintar_linha. case_bool_decide; [done|].
    by rewrite range_vazio by lia. }
  split; [apply Hr|].
  unfold linha_do_tempo. rewrite !fold_left_app. cbn [fold_left]. by rewrite Hr.
Qed.

Lemma intervalo_invertido_nao_pinta_witness :
  pintar_linha dia_exemplo (instante 12 0 0) (replicate 1440 "gray") linha_meia_noite
  = replicate 1440 "gray"
  /\ linha_do_tempo dia_exemplo (instante 12 0 0) ([] ++ linha_meia_noite :: [])
     = linha_do_tempo dia_exemplo (instante 12 0 0) ([] ++ []).
Proof.
  apply (intervalo_invertido_nao_pinta dia_exemplo (instante 12 0 0) linha_meia_noite).
  - reflexivity.
  - vm_compute. reflexivity.
Defined.

(** ** The totals of a day *)

(** C5: for a day without intervals the totals query yields the three
    durations "00:00" and a NULL percentage: [pct_ociosas] is [None],
    not 0. *)
Theorem dia_sem_intervalos {R : Type} `{Real R} `{Arredonda R}
  (hoje : data) (agora : datahora) (t : list Log.linha) :
  do_dia hoje t = [] ->
  calcular_horas false hoje agora t = @Totais R "00:00" "00:00" "00:00" None.
Proof.
  intros Hvazio. unfold calcular_horas, consulta_horas.
  unfold horas_totais_sql, horas_ativas_sql, horas_ociosas_sql, razao_ociosa, soma_horas.
  rewrite Hvazio. reflexivity.
Qed.

Lemma dia_sem_intervalos_witness :
  calcular_horas (R := Q) false dia_exemplo (instante 12 0 0) []
  = @Totais Q "00:00" "00:00" "00:00" None.
Proof. exact (dia_sem_intervalos dia_exemplo (instante 12 0 0) [] eq_refl). Defined.

(** The default 0 of the percentage is reached only when the query
    itself fails. *)
Lemma consulta_falha_padrao {R : Type} `{Real R} `{Arredonda R}
  (hoje : data) (agora : datahora) (t : list Log.linha) :
  calcular_horas true hoje agora t = @Totais R "00:00" "00:00" "00:00" (Some (de_inteiro 0)).
Proof. reflexivity. Qed.

(** A day whose intervals add up to zero seconds: the division by zero
    gives NULL as well. *)
Lemma total_zero_percentual_nulo :
  calcular_horas (R := Q) false dia_exemplo (instante 12 0 0)
    [ Log.Linha 1 "Ocioso" (instante 9 0 0) (Some (instante 9 0 0)) ]
  = @Totais Q "00:00" "00:00" "00:00" None.
Proof. vm_compute. reflexivity. Qed.

(** The example of the specification: ten active and ten idle minutes. *)
Lemma percentual_exemplo :
  calcular_horas (R := Q) false dia_exemplo (instante 12 0 0)
    [ Log.Linha 1 "Ativo" (instante 0 0 0) (Some (instante 0 10 0));
      Log.Linha 2 "Ocioso" (instante 0 10 0) (Some (instante 0 20 0)) ]
  = @Totais Q "00:20" "00:10" "00:10" (Some (5000 # 100)%Q).
Proof. vm_compute. reflexivity. Qed.

(** C8: with the binary64 arithmetic of SQLite, the two-minute interval
    from 09:00:00 to 09:02:00 is shown as "00:01", while the whole
    seconds between its timestamps, 120, give "00:02". *)
Theorem julianday_perde_um_minuto :
  horas_totais_sql (R := float) dia_exemplo (instante 12 0 0) (log_nove_horas 0 0) = "00:01"
  /\ horas_ativas_sql (R := float) dia_exemplo (instante 12 0 0) (log_nove_horas 0 0) = "00:01"
  /\ segundos_do_dia None dia_exemplo (instante 12 0 0) (log_nove_horas 0 0) = 120
  /\ hh_mm_de_segundos (segundos_do_dia None dia_exemplo (instante 12 0 0) (log_nove_horas 0 0))
     = "00:02".
Proof. vm_compute. done. Qed.

(** ** The totals with exact arithmetic

    What the query would show if REAL numbers were exact rationals: an
    idealisation, which tells the design of the query from the rounding
    of binary64. *)

Lemma iJD_milissegundos (t : datahora) : exists k, iJD t = 1000 * k.
Proof.
  unfold iJD. destruct (mes t <=? 2);
    match goal with
    | |- exists k, (2 * ?x - 3049) * 43200000 + _ + _ + _ = _ =>
        exists ((2 * x - 3049) * 43200 + hora t * 3600 + minuto t * 60 + segundo t)
    end; ring.
Qed.

Lemma segundos_entre_iJD (inicio fim : datahora) :
  iJD fim - iJD inicio = 1000 * segundos_entre inicio fim.
Proof.
  unfold segundos_entre.
  destruct (iJD_milissegundos inicio) as [k1 ->], (iJD_milissegundos fim) as [k2 ->].
  replace (1000 * k2 - 1000 * k1) with ((k2 - k1) * 1000) by ring.
  rewrite Z.quot_mul by done. ring.
Qed.

Lemma horas_exatas (agora : datahora) (r : Log.linha) :
  (horas (R := Q) agora r * 3600 == inject_Z (duracao agora r))%Q.
Proof.
  unfold horas, julianday, duracao. cbn [de_inteiro r_mul r_sub r_div real_exato].
  pose proof (segundos_entre_iJD (Log.data_hora r) (fim_efetivo agora r)) as Hd.
  apply (f_equal inject_Z) in Hd. rewrite inject_Z_mult in Hd.
  unfold Zminus in Hd. rewrite inject_Z_plus, inject_Z_opp in Hd.
  set (e := inject_Z (iJD (fim_efetivo agora r))) in *.
  set (b := inject_Z (iJD (Log.data_hora r))) in *.
  set (d := inject_Z (segundos_entre (Log.data_hora r) (fim_efetivo agora r))) in *.
  assert (e == b + inject_Z 1000 * d)%Q as -> by (rewrite <- Hd; ring).
  unfold inject_Z at 1 2 3 4. field.
Qed.

Lemma termo_exato (s : option string) (agora : datahora) (r : Log.linha) :
  (termo (R := Q) s agora r * 3600
   == inject_Z (if conta s r then duracao agora r else 0))%Q.
Proof.
  unfold termo, conta. destruct s as [s|]; [case_bool_decide|];
    try apply horas_exatas. reflexivity.
Qed.

Lemma fold_left_Qplus (l : list Q) (a : Q) :
  (fold_left Qplus l a == a + fold_right Qplus 0 l)%Q.
Proof.
  revert a. induction l as [|x l IH]; intros a; simpl.
  - ring.
  - rewrite IH. ring.
Qed.

Lemma sql_sum_exato (l : list Q) :
  (default 0 (sql_sum l) == fold_right Qplus 0 l)%Q.
Proof.
  destruct l as [|x l]; [reflexivity|].
  unfold sql_sum, default. rewrite fold_left_Qplus.
  unfold id. cbn [de_inteiro real_exato]. unfold inject_Z. ring.
Qed.

Lemma segundos_do_dia_cons s hoje agora r t :
  segundos_do_dia s hoje agora (r :: t)
  = (if bool_decide (date (Log.data_hora r) = hoje) && conta s r
     then duracao agora r else 0)
    + segundos_do_dia s hoje agora t.
Proof.
  unfold segundos_do_dia. simpl.
  destruct (bool_decide (date (Log.data_hora r) = hoje) && conta s r); simpl; lia.
Qed.

Lemma segundos_do_dia_app s hoje agora t1 t2 :
  segundos_do_dia s hoje agora (t1 ++ t2)
  = segundos_do_dia s hoje agora t1 + segundos_do_dia s hoje agora t2.
Proof.
  induction t1 as [|r t1 IH]; [done|].
  rewrite <- app_comm_cons, !segundos_do_dia_cons, IH. lia.
Qed.

Lemma soma_horas_exata (s : option string) (hoje : data) (agora : datahora)
  (t : list Log.linha) :
  (default 0 (soma_horas (R := Q) s hoje agora t) * 3600
   == inject_Z (segundos_do_dia s hoje agora t))%Q.
Proof.
  unfold soma_horas. rewrite sql_sum_exato.
  induction t as [|r t IH].
  - reflexivity.
  - rewrite segundos_do_dia_cons. unfold do_dia. simpl.
    fold (do_dia hoje t). case_bool_decide; simpl.
    + rewrite inject_Z_plus, <- IH, <- termo_exato. ring.
    + rewrite IH. reflexivity.
Qed.

Lemma do_dia_outro_dia (hoje : data) (t1 t2 : list Log.linha) (r : Log.linha) :
  date (Log.data_hora r) <> hoje -> do_dia hoje (t1 ++ r :: t2) = do_dia hoje (t1 ++ t2).
Proof.
  intros Hdia. unfold do_dia. rewrite !List.filter_app. simpl.
  by rewrite bool_decide_false.
Qed.

(** [CAST(x AS INTEGER)] depends on the value of the rational only. *)
Lemma r_trunc_exato (x : Q) (n : Z) (d : positive) :
  (x == n # d)%Q -> r_trunc x = n ÷ Z.pos d.
Proof.
  destruct x as [a b]. unfold Qeq. cbn [Qnum Qden r_trunc real_exato]. intros Heq.
  rewrite <- (Z.quot_mul_cancel_r a (Z.pos b) (Z.pos d)) by done.
  rewrite Heq, (Z.mul_comm (Z.pos b) (Z.pos d)), Z.quot_mul_cancel_r by done. done.
Qed.

(** With exact arithmetic the query shows the hours and minutes of the
    whole seconds of the day, the seconds dropped. *)
Lemma hh_mm_exato (s : option string) (hoje : data) (agora : datahora)
  (t : list Log.linha) :
  hh_mm (soma_horas (R := Q) s hoje agora t)
  = hh_mm_de_segundos (segundos_do_dia s hoje agora t).
Proof.
  pose proof (soma_horas_exata s hoje agora t) as Hsoma.
  unfold hh_mm, hh_mm_de_segundos.
  destruct (soma_horas (R := Q) s hoje agora t) as [x|] eqn:Hx.
  - unfold default, id in Hsoma. cbn [fmap option_fmap option_map].
    set (S := segundos_do_dia s hoje agora t) in *.
    assert (r_trunc x = S ÷ 3600) as ->.
    { apply (r_trunc_exato x S 3600).
      rewrite (Qmake_Qdiv S 3600), <- Hsoma. unfold inject_Z. field. }
    assert (r_trunc (r_mul x (de_inteiro 60)) = S ÷ 60) as ->; [|done].
    apply (r_trunc_exato _ S 60). cbn [r_mul de_inteiro real_exato].
    rewrite (Qmake_Qdiv S 60), <- Hsoma. unfold inject_Z. field.
  - unfold default in Hsoma.
    assert (segundos_do_dia s hoje agora t = 0) as ->; [|done].
    unfold Qeq in Hsoma. cbn in Hsoma. lia.
Qed.

(** ** The day of an interval is the day of its start *)

Lemma computeJD_X1 (n : Z) : 0 <= n -> (36525 * n) ÷ 100 = 365 * n + n / 4.
Proof. intros Hn. rewrite Z.quot_div_nonneg by lia. Z.div_mod_to_equations. lia. Qed.

Lemma computeJD_B (n : Z) : 0 <= n -> n ÷ 100 = n / 100 /\ (n ÷ 100) ÷ 4 = n / 400.
Proof.
  intros Hn. rewrite (Z.quot_div_nonneg n 100) by lia. split; [done|].
  rewrite Z.quot_div_nonneg by (try apply Z.div_pos; lia).
  rewrite Z.div_div by lia. done.
Qed.

Lemma bissexto_dias (y : Z) :
  y / 4 - y / 100 + y / 400
  = (y - 1) / 4 - (y - 1) / 100 + (y - 1) / 400 + (if bissexto y then 1 else 0).
Proof.
  unfold bissexto.
  destruct (Z.eqb_spec (y mod 4) 0), (Z.eqb_spec (y mod 100) 0), (Z.eqb_spec (y mod 400) 0);
    cbn; Z.div_mod_to_equations; lia.
Qed.

(** The day count of the calendar goes up by one from a day to the
    next. *)
Lemma dias_antes_do_mes_seguinte (y m : Z) :
  1 <= m < 12 -> dias_antes_do_mes y (m + 1) = dias_antes_do_mes y m + dias_no_mes y m.
Proof.
  intros Hm.
  assert (m = 1 \/ m = 2 \/ m = 3 \/ m = 4 \/ m = 5 \/ m = 6 \/ m = 7 \/ m = 8 \/ m = 9
          \/ m = 10 \/ m = 11) as Hcase by lia.
  unfold dias_antes_do_mes, dias_no_mes.
  destruct Hcase as [->|[->|[->|[->|[->|[->|[->|[->|[->|[->| ->]]]]]]]]]];
    destruct (bissexto y); reflexivity.
Qed.

Lemma toordinal_mais_um_dia (d d' : data) :
  data_valida d -> mais_um_dia d = Some d' -> toordinal d' = toordinal d + 1.
Proof.
  destruct d as [[y m] dd]. unfold data_valida, mais_um_dia, toordinal.
  intros (Hy & Hm & Hd) Hmais.
  destruct (Z.ltb_spec dd (dias_no_mes y m)); [injection Hmais as <-; lia|].
  assert (dd = dias_no_mes y m) as -> by lia. clear Hd.
  destruct (Z.ltb_spec m 12).
  - injection Hmais as <-. rewrite dias_antes_do_mes_seguinte by lia. lia.
  - destruct (Z.ltb_spec y 9999); [|done]. injection Hmais as <-.
    assert (m = 12) as -> by lia.
    pose proof (bissexto_dias y) as Hb.
    unfold dias_antes_do_ano, dias_antes_do_mes, dias_no_mes.
    replace (y + 1 - 1) with y by lia.
    change (2 <? 1) with false. change (2 <? 12) with true.
    change (12 =? 2) with false. cbn [andb orb].
    simpl (nth _ _ _). destruct (bissexto y); simpl; lia.
Qed.

(** The millisecond Julian day number of SQLite is, up to one constant,
    a thousand times the seconds counted on the calendar. *)
Lemma iJD_civil (t : datahora) :
  1 <= ano t <= 9999 -> 1 <= mes t <= 12 ->
  iJD t = 1000 * segundos_civis t + 148731076800000.
Proof.
  destruct t as [y m d h mi s].
  unfold iJD, segundos_civis, toordinal, date, dias_antes_do_ano.
  cbn [ano mes dia hora minuto segundo]. intros Hy Hm.
  pose proof (bissexto_dias y) as Hb.
  assert (m = 1 \/ m = 2 \/ m = 3 \/ m = 4 \/ m = 5 \/ m = 6 \/ m = 7 \/ m = 8 \/ m = 9
          \/ m = 10 \/ m = 11 \/ m = 12) as Hcase by lia.
  destruct Hcase as [->|[->|[->|[->|[->|[->|[->|[->|[->|[->|[->| ->]]]]]]]]]]];
    unfold dias_antes_do_mes;
    simpl (nth _ _ _);
    cbn [Z.leb Z.ltb Z.compare Pos.compare Pos.compare_cont andb];
    rewrite computeJD_X1 by lia;
    match goal with
    | |- context [?Y ÷ 100] =>
        destruct (computeJD_B Y ltac:(lia)) as [-> ->]
    end;
    destruct (bissexto y);
    Z.to_euclidean_division_equations; lia.
Qed.

Lemma termo_conta {R : Type} `{Real R} (s : option string) (agora : datahora)
  (r : Log.linha) :
  termo s agora r = if conta s r then horas agora r else de_inteiro 0.
Proof. unfold termo, conta. by destruct s. Qed.

Lemma soma_horas_do_dia {R : Type} `{Real R} (s : option string) (hoje : data)
  (agora : datahora) (t1 t2 : list Log.linha) (r : Log.linha) :
  date (Log.data_hora r) = hoje ->
  soma_horas s hoje agora (t1 ++ r :: t2)
  = sql_sum (map (termo s agora) (do_dia hoje t1)
             ++ termo s agora r :: map (termo s agora) (do_dia hoje t2)).
Proof.
  intros Hdia. unfold soma_horas, do_dia. rewrite List.filter_app. cbn [List.filter].
  rewrite (bool_decide_true (date (Log.data_hora r) = hoje)) by done.
  by rewrite map_app.
Qed.



(** ** The loop after a failed write of [registrar_programa] *)

(** The INSERT of the first focus interval fails: the exception leaves
    [monitorar] at once, with the focus state still unset, and the
    second sample is never read. *)
Lemma falha_encerra_monitorar :
  monitorar
    [ (falha_no_insert_prog, amostra_em 0 (janela "notepad.exe" "a.txt") (instante 9 0 0));
      (sem_falhas, amostra_em 0 (janela "notepad.exe" "a.txt") (instante 9 0 5)) ]
    (novo banco_vazio)
  = Excecao (Self (Banco [Log.Linha 1 "Ativo" (instante 9 0 0) None] [] false)
                  (Some "Ativo") LIMITE_OCIOSO None None None).
Proof. vm_compute. reflexivity. Qed.

(** ** The threshold of [monitorar] *)



(** ** What one tick and a whole run write *)

Lemma mudancas_cons {A} `{EqDecision A} (anterior : A) (x : A * datahora)
  (l : list (A * datahora)) :
  mudancas anterior (x :: l) = mudancas anterior [x] ++ mudancas x.1 l.
Proof.
  destruct x as [x t]. simpl. destruct (decide (x = anterior)) as [->|]; done.
Qed.

Lemma colunas_update_log agora s (t : list Log.linha) :
  map colunas_log (update_log agora s t) = map colunas_log t.
Proof.
  unfold update_log. rewrite map_map. apply map_ext. intros r. by case_match.
Qed.

Lemma colunas_update_prog agora app titulo inicio (t : list Prog.linha) :
  map colunas_prog (update_prog agora app titulo inicio t) = map colunas_prog t.
Proof.
  unfold update_prog. rewrite map_map. apply map_ext. intros r. by case_match.
Qed.

Lemma registrar_status_colunas agora novo_status self :
  let self' := registrar_status sem_falhas agora novo_status self in
  status_atual self' = Some novo_status
  /\ limite_ocioso self' = limite_ocioso self
  /\ ultimo_app self' = ultimo_app self
  /\ ultimo_titulo self' = ultimo_titulo self
  /\ inicio_app self' = inicio_app self
  /\ programas_documentos (db self') = programas_documentos (db self)
  /\ map colunas_log (log_atividade (db self'))
     = map colunas_log (log_atividade (db self))
       ++ mudancas (status_atual self) [(Some novo_status, agora)].
Proof.
  intros self'.
  destruct (registrar_status_campos sem_falhas agora novo_status self)
    as (Hl & Hua & Hut & Hini).
  assert (status_atual self' = Some novo_status) as Hst.
  { subst self'. unfold registrar_status. case_bool_decide as Hm; [done|].
    destruct (decide (status_atual self = Some novo_status)); [done|by destruct Hm]. }
  repeat split; try done; [apply registrar_status_programas|].
  subst self'. rewrite registrar_status_log. cbn zeta.
  cbn [sem_falhas falha_update_log falha_insert_log mudancas].
  case_bool_decide as Hmuda.
  - rewrite decide_False by (intros Heq; by apply Hmuda).
    unfold insert_log. rewrite map_app. f_equal.
    destruct (status_atual self) as [s|]; [|done].
    destruct (truthy (Some s)); [|done]. apply colunas_update_log.
  - assert (status_atual self = Some novo_status) as Heq
      by (destruct (decide (status_atual self = Some novo_status)); [done|by destruct Hmuda]).
    rewrite decide_True by done. by rewrite app_nil_r.
Qed.

Lemma registrar_programa_colunas agora app titulo self :
  exists self',
    registrar_programa sem_falhas agora app titulo self = Retorna self'
    /\ status_atual self' = status_atual self
    /\ limite_ocioso self' = limite_ocioso self
    /\ ultimo_app self' = app /\ ultimo_titulo self' = titulo
    /\ log_atividade (db self') = log_atividade (db self)
    /\ map colunas_prog (programas_documentos (db self'))
       = map colunas_prog (programas_documentos (db self)) ++ [((app, titulo), agora)].
Proof.
  rewrite registrar_programa_sem_falhas.
  eexists; (split; [reflexivity|]).
  cbn [status_atual limite_ocioso ultimo_app ultimo_titulo db log_atividade
       programas_documentos].
  repeat split. unfold insert_prog. rewrite map_app.
  destruct (truthy (ultimo_app self) && bool_decide (is_Some (inicio_app self)));
    [rewrite colunas_update_prog|]; done.
Qed.

Lemma tick_colunas a self :
  exists self',
    tick sem_falhas a self = Retorna self'
    /\ limite_ocioso self' = limite_ocioso self
    /\ status_atual self' = Some (classificar self a)
    /\ (ultimo_app self', ultimo_titulo self') = get_focused_app (foco a)
    /\ map colunas_log (log_atividade (db self'))
       = map colunas_log (log_atividade (db self))
         ++ mudancas (status_atual self) [leitura_de_status self a]
    /\ map colunas_prog (programas_documentos (db self'))
       = map colunas_prog (programas_documentos (db self))
         ++ mudancas (ultimo_app self, ultimo_titulo self) [leitura_de_foco a].
Proof.
  unfold tick, leitura_de_status, leitura_de_foco.
  destruct (registrar_status_colunas (agora_status a) (classificar self a) self)
    as (Hst & Hlim & Hua & Hut & Hini & Hprog & Hlog).
  set (self1 := registrar_status sem_falhas (agora_status a) (classificar self a) self) in *.
  destruct (get_focused_app (foco a)) as [app titulo] eqn:Hfoco.
  assert (bool_decide (app ≠ ultimo_app self1) || bool_decide (titulo ≠ ultimo_titulo self1)
          = negb (bool_decide ((app, titulo) = (ultimo_app self, ultimo_titulo self)))) as ->.
  { rewrite Hua, Hut.
    destruct (decide (app = ultimo_app self)), (decide (titulo = ultimo_titulo self));
      repeat case_bool_decide; simplify_eq; done. }
  cbn [mudancas]. case_bool_decide as Higual; cbn [negb].
  - exists self1. destruct (decide ((app, titulo) = (ultimo_app self, ultimo_titulo self))); [|done].
    rewrite app_nil_r. repeat split; try done; congruence.
  - destruct (registrar_programa_colunas (agora_programa a) app titulo self1)
      as (self' & -> & Hst' & Hlim' & Hua' & Hut' & Hlog' & Hprog').
    exists self'. destruct (decide ((app, titulo) = (ultimo_app self, ultimo_titulo self))); [done|].
    rewrite Hlim', Hst', Hua', Hut', Hlog', Hprog', Hprog. done.
Qed.

Lemma classificar_depende_do_limite self self' a :
  limite_ocioso self' = limite_ocioso self -> classificar self' a = classificar self a.
Proof. unfold classificar. by intros ->. Qed.

Lemma monitorar_colunas (amostras : list amostra) (self : LogAtividade) :
  exists self',
    monitorar (map sem_falha amostras) self = Retorna self'
    /\ limite_ocioso self' = limite_ocioso self
    /\ map colunas_log (log_atividade (db self'))
       = map colunas_log (log_atividade (db self))
         ++ mudancas (status_atual self) (map (leitura_de_status self) amostras)
    /\ map colunas_prog (programas_documentos (db self'))
       = map colunas_prog (programas_documentos (db self))
         ++ mudancas (ultimo_app self, ultimo_titulo self) (map leitura_de_foco amostras).
Proof.
  revert self. induction amostras as [|a amostras IH]; intros self.
  - exists self. simpl. by rewrite !app_nil_r.
  - destruct (tick_colunas a self) as (self1 & Htick & Hlim & Hst & Hfoco & Hlog & Hprog).
    destruct (IH self1) as (self' & Hrun & Hlim' & Hlog' & Hprog').
    exists self'. rewrite !map_cons. unfold sem_falha at 1. cbn [monitorar].
    rewrite Htick. split; [done|]. split; [congruence|].
    rewrite Hlog', Hprog', Hlog, Hprog, <- !app_assoc. split; f_equal.
    + rewrite (mudancas_cons _ (leitura_de_status self a)
                 (map (leitura_de_status self) amostras)).
      f_equal. rewrite Hst. cbn [fst leitura_de_status]. f_equal.
      apply map_ext. intros b. unfold leitura_de_status.
      by rewrite (classificar_depende_do_limite self self1).
    + rewrite (mudancas_cons _ (leitura_de_foco a) (map leitura_de_foco amostras)).
      f_equal. rewrite Hfoco. done.
Qed.

(** In a run from a new database, the rows of [log_atividade] are, in
    order, the samples whose status differs from the status of the
    sample before (the first sample always counts), each with its
    status and the clock reading of that sample; the rows of
    [programas_documentos] are the samples whose focus pair differs
    from the pair before, starting from the pair (None, None). *)
Theorem linhas_sao_as_mudancas (amostras : list amostra) :
  let self := executar_amostras amostras in
  map colunas_log (log_atividade (db self))
  = mudancas None (map (leitura_de_status (novo banco_vazio)) amostras)
  /\ map colunas_prog (programas_documentos (db self))
     = mudancas (None, None) (map leitura_de_foco amostras).
Proof.
  unfold executar_amostras.
  destruct (monitorar_colunas amostras (novo banco_vazio)) as (self' & -> & _ & Hlog & Hprog).
  done.
Qed.

(** ** The state after the last sample *)

Lemma executar_amostras_snoc (amostras : list amostra) (a : amostra) :
  executar_amostras (amostras ++ [a])
  = objeto (tick sem_falhas a (executar_amostras amostras)).
Proof.
  unfold executar_amostras. generalize (novo banco_vazio).
  induction amostras as [|b amostras IH]; intros self.
  - simpl. by destruct (tick sem_falhas a self).
  - rewrite <- app_comm_cons, !map_cons. unfold sem_falha at 1 3. cbn [monitorar].
    destruct (tick_colunas b self) as (self1 & -> & _). apply IH.
Qed.

Lemma executar_amostras_limite (amostras : list amostra) :
  limite_ocioso (executar_amostras amostras) = LIMITE_OCIOSO.
Proof.
  unfold executar_amostras.
  destruct (monitorar_colunas amostras (novo banco_vazio)) as (self' & -> & Hlim & _).
  done.
Qed.

(** After a run from a new database that read at least one sample, the
    tracker holds the status and the focus pair of the last sample, the
    last row of [log_atividade] is open and has that status, and, when
    a window has the focus, the last row of [programas_documentos] is
    open and has that pair. *)
Theorem estado_da_ultima_amostra (amostras : list amostra) (a : amostra) :
  let self := executar_amostras (amostras ++ [a]) in
  status_atual self = Some (classificar (novo banco_vazio) a)
  /\ (exists r, last (log_atividade (db self)) = Some r
                /\ Log.status r = classificar (novo banco_vazio) a
                /\ Log.data_hora_final r = None)
  /\ (ultimo_app self, ultimo_titulo self) = get_focused_app (foco a)
  /\ (truthy (ultimo_app self) = true ->
      exists r, last (programas_documentos (db self)) = Some r
                /\ (Prog.nome_programa r, Prog.nome_documento r) = get_focused_app (foco a)
                /\ Prog.data_hora_final r = None).
Proof.
  intros self.
  destruct (executar_amostras_inv (amostras ++ [a])) as [Hlog [_ Hprog]].
  fold self in Hlog, Hprog.
  assert (status_atual self = Some (classificar (novo banco_vazio) a)
          /\ (ultimo_app self, ultimo_titulo self) = get_focused_app (foco a)) as [Hst Hfoco].
  { subst self. rewrite executar_amostras_snoc.
    destruct (tick_colunas a (executar_amostras amostras)) as (s1 & -> & _ & Hst & Hfoco & _).
    cbn [objeto]. split; [|done]. rewrite Hst. f_equal.
    apply classificar_depende_do_limite. apply executar_amostras_limite. }
  split; [done|]. split; [|split; [done|]].
  - unfold inv_log in Hlog. rewrite Hst in Hlog.
    destruct Hlog as (_ & pre & r & -> & Hr & Hopen & _).
    exists r. by rewrite last_snoc.
  - intros Htr. destruct (inicio_app self) as [t0|].
    + destruct Hprog as (pre & r & -> & Hn & Hd & _ & Hopen & _).
      exists r. rewrite last_snoc, Hn, Hd. done.
    + destruct Hprog as [_ Hnone]. by rewrite Hnone in Htr.
Qed.

Lemma estado_da_ultima_amostra_witness :
  exists r, last (programas_documentos (db (executar_amostras ([] ++ amostras_trabalho))))
            = Some r
            /\ (Prog.nome_programa r, Prog.nome_documento r) = (Some "chrome.exe", Some "b")
            /\ Prog.data_hora_final r = None.
Proof.
  exact (proj2 (proj2 (proj2
    (estado_da_ultima_amostra
       [amostra_em 0 (janela "notepad.exe" "a.txt") (instante 9 0 0)]
       (amostra_em 400000 (janela "chrome.exe" "b") (instante 9 10 0))))) eq_refl).
Defined.

(** ** Rows are kept *)

Lemma evolui_log_trans (r r' r'' : Log.linha) : evolui r r' -> evolui r' r'' -> evolui r r''.
Proof.
  intros [->|[Hr [fim ->]]] [->|[Hr' [fim' ->]]]; unfold evolui; eauto.
Qed.

Lemma evolui_prog_trans (r r' r'' : Prog.linha) : evolui r r' -> evolui r' r'' -> evolui r r''.
Proof.
  intros [->|[Hr [fim ->]]] [->|[Hr' [fim' ->]]]; unfold evolui; eauto.
Qed.

Lemma executar_evolui_log falha agora s (t : list Log.linha) i r :
  t !! i = Some r ->
  exists r', (if falha : bool then t else update_log agora s t) !! i = Some r'
             /\ evolui r r'.
Proof.
  intros Hi. destruct falha.
  - exists r. split; [done|by left].
  - rewrite (update_log_lookup _ _ _ _ r Hi). eexists. split; [done|].
    case_decide as Hk; [|by left]. right. destruct Hk. eauto.
Qed.

Lemma registrar_status_evolui f agora novo_status self i r :
  log_atividade (db self) !! i = Some r ->
  exists r', log_atividade (db (registrar_status f agora novo_status self)) !! i = Some r'
             /\ evolui r r'.
Proof.
  intros Hi. rewrite registrar_status_log.
  case_bool_decide; [|exists r; split; [done|by left]]. cbn zeta.
  assert (exists r', match status_atual self with
                     | Some s => if truthy (Some s)
                                 then (if falha_update_log f then log_atividade (db self)
                                       else update_log agora s (log_atividade (db self)))
                                 else log_atividade (db self)
                     | None => log_atividade (db self)
                     end !! i = Some r' /\ evolui r r') as (r' & Hr' & Hev).
  { destruct (status_atual self) as [s|]; [destruct (truthy (Some s))|];
      try (exists r; split; [done|by left]). by apply executar_evolui_log. }
  exists r'. split; [|done].
  destruct (falha_insert_log f); [done|]. unfold insert_log. by apply lookup_app_l_Some.
Qed.

Lemma registrar_programa_evolui f agora app titulo self i r :
  programas_documentos (db self) !! i = Some r ->
  exists r', programas_documentos (db (objeto (registrar_programa f agora app titulo self))) !! i
             = Some r'
             /\ evolui r r'.
Proof.
  intros Hi. unfold registrar_programa, cursor_execute, conn_commit, em_prog.
  assert (exists r', update_prog agora (ultimo_app self) (ultimo_titulo self) (inicio_app self)
                       (programas_documentos (db self)) !! i = Some r' /\ evolui r r')
    as (r1 & Hr1 & Hev1).
  { rewrite (update_prog_lookup _ _ _ _ _ _ r Hi). eexists. split; [done|].
    case_decide as Hk; [|by left]. right. destruct Hk as (_ & _ & _ & _ & _ & Hopen). eauto. }
  pose proof (lookup_app_l_Some _ [Prog.Linha
                  (S (length (update_prog agora (ultimo_app self) (ultimo_titulo self)
                                (inicio_app self) (programas_documentos (db self)))))
                  app titulo agora None] _ _ Hr1) as Hr1'.
  pose proof (lookup_app_l_Some _ [Prog.Linha (S (length (programas_documentos (db self))))
                                     app titulo agora None] _ _ Hi) as Hi'.
  unfold insert_prog.
  destruct (falha_cursor_prog f); [exists r; split; [done|by left]|].
  destruct (truthy (ultimo_app self) && bool_decide (is_Some (inicio_app self)));
    [destruct (falha_update_prog f)|]; destruct (falha_insert_prog f);
    destruct (falha_commit_prog f); destruct (falha_print_prog f);
    cbn [objeto db com_banco programas_documentos log_atividade];
    first [ by (exists r; split; [done|by left]) | by (exists r1; split; [done|done]) ].
Qed.

Lemma registrar_programa_log_igual f agora app titulo self :
  log_atividade (db (objeto (registrar_programa f agora app titulo self)))
  = log_atividade (db self).
Proof.
  unfold registrar_programa, cursor_execute, conn_commit, em_prog.
  repeat (case_match; simplify_eq; simpl; try done).
Qed.

Lemma tick_evolui f a self i :
  (forall r, log_atividade (db self) !! i = Some r ->
     exists r', log_atividade (db (objeto (tick f a self))) !! i = Some r' /\ evolui r r')
  /\ (forall r, programas_documentos (db self) !! i = Some r ->
     exists r', programas_documentos (db (objeto (tick f a self))) !! i = Some r'
                /\ evolui r r').
Proof.
  unfold tick.
  set (self1 := registrar_status f (agora_status a) (classificar self a) self).
  destruct (get_focused_app (foco a)) as [app titulo].
  destruct (bool_decide (app ≠ ultimo_app self1) || bool_decide (titulo ≠ ultimo_titulo self1)).
  - split; intros r Hi.
    + rewrite registrar_programa_log_igual. by apply registrar_status_evolui.
    + apply registrar_programa_evolui. subst self1. by rewrite registrar_status_programas.
  - split; intros r Hi; cbn [objeto].
    + by apply registrar_status_evolui.
    + subst self1. rewrite registrar_status_programas. exists r. split; [done|by left].
Qed.



(** ** Failures of the status statements do not stop the loop *)



(** ** Leaving a status closes every open interval of it *)



(** ** A clock that does not go back *)

Lemma registrar_status_linhas agora novo_status self r' :
  r' ∈ log_atividade (db (registrar_status sem_falhas agora novo_status self)) ->
  (exists r, r ∈ log_atividade (db self)
             /\ (r' = r \/ (Log.data_hora_final r = None /\ r' = encerrar agora r)))
  \/ (Log.data_hora r' = agora /\ Log.data_hora_final r' = None).
Proof.
  rewrite registrar_status_log. case_bool_decide; [|intros Hr; left; exists r'; eauto].
  cbn zeta. cbn [sem_falhas falha_update_log falha_insert_log].
  unfold insert_log. intros Hr. apply elem_of_app in Hr. destruct Hr as [Hr|Hr].
  - left. destruct (status_atual self) as [s|]; [destruct (truthy (Some s))|];
      [|by exists r'; eauto..].
    unfold update_log in Hr. apply list_elem_of_fmap in Hr. destruct Hr as (r & -> & Hr).
    exists r. split; [done|].
    destruct (bool_decide (Log.status r = s) && aberta r) eqn:Hc; [|by left].
    right. split; [|done].
    apply andb_true_iff in Hc. destruct Hc as [_ Hc]. unfold aberta in Hc. simpl in Hc.
    by destruct (Log.data_hora_final r).
  - right. apply list_elem_of_singleton in Hr. by subst r'.
Qed.

Lemma relogio_crescente_snoc (amostras : list amostra) (a : amostra) :
  relogio_crescente (amostras ++ [a]) ->
  relogio_crescente amostras
  /\ forall b, b ∈ amostras -> iJD (agora_status b) <= iJD (agora_status a).
Proof.
  intros Hrel. split.
  - intros i j x y Hij Hi Hj. apply (Hrel i j); try done; by apply lookup_app_l_Some.
  - intros b Hb. apply list_elem_of_lookup in Hb. destruct Hb as [i Hi].
    apply (Hrel i (length amostras)).
    + apply lookup_lt_Some in Hi. lia.
    + by apply lookup_app_l_Some.
    + by rewrite list_lookup_middle.
Qed.

Lemma inicios_sao_leituras (amostras : list amostra) (r : Log.linha) :
  relogio_crescente amostras ->
  r ∈ log_atividade (db (executar_amostras amostras)) ->
  (exists a, a ∈ amostras /\ Log.data_hora r = agora_status a)
  /\ (forall fim, Log.data_hora_final r = Some fim -> iJD (Log.data_hora r) <= iJD fim).
Proof.
  revert r. induction amostras as [|a amostras IH] using rev_ind; intros r Hrel Hr.
  - by apply elem_of_nil in Hr.
  - apply relogio_crescente_snoc in Hrel. destruct Hrel as [Hrel Hmax].
    rewrite executar_amostras_snoc in Hr. unfold tick in Hr.
    set (self := executar_amostras amostras) in *.
    assert (r ∈ log_atividade (db (registrar_status sem_falhas (agora_status a)
                                     (classificar self a) self))) as Hr1.
    { destruct (get_focused_app (foco a)) as [app titulo].
      destruct (_ || _); [by rewrite registrar_programa_log_igual in Hr|done]. }
    apply registrar_status_linhas in Hr1.
    destruct Hr1 as [(r0 & Hr0 & [->|[Hopen ->]])|[Hini Hfim]].
    + destruct (IH r0 Hrel Hr0) as [(b & Hb & Hbr) Hdur]. split; [|done].
      exists b. split; [|done]. apply elem_of_app. by left.
    + destruct (IH r0 Hrel Hr0) as [(b & Hb & Hbr) _]. split.
      * exists b. split; [|done]. apply elem_of_app. by left.
      * intros fim Hfim. simpl in Hfim |- *. simplify_eq. rewrite Hbr. by apply Hmax.
    + split.
      * exists a. split; [|done]. apply elem_of_app. right. apply list_elem_of_here.
      * intros fim Hfim'. congruence.
Qed.

(** When the clock readings of a run from a new database never go back,
    no status interval ends before it starts: every closed interval
    lasts zero seconds or more. *)
Theorem duracoes_nao_negativas (amostras : list amostra) (r : Log.linha) (fim : datahora) :
  relogio_crescente amostras ->
  r ∈ log_atividade (db (executar_amostras amostras)) ->
  Log.data_hora_final r = Some fim ->
  0 <= segundos_entre (Log.data_hora r) fim.
Proof.
  intros Hrel Hr Hfim.
  destruct (inicios_sao_leituras amostras r Hrel Hr) as [_ Hdur].
  specialize (Hdur fim Hfim). unfold segundos_entre.
  apply Z.quot_pos; lia.
Qed.

Lemma duracoes_nao_negativas_witness :
  0 <= segundos_entre (instante 9 0 0) (instante 9 10 0).
Proof.
  apply (duracoes_nao_negativas amostras_dia
           (Log.Linha 1 "Ativo" (instante 9 0 0) (Some (instante 9 10 0)))).
  - intros i j a b Hij Hi Hj.
    destruct i as [|[|[|[|i]]]], j as [|[|[|[|j]]]];
      simpl in Hi, Hj; simplify_eq; try lia; vm_compute; discriminate.
  - vm_compute. apply list_elem_of_here.
  - reflexivity.
Defined.

(** ** The colour of every slot *)

Lemma range_cons (a b : Z) : a < b -> range a b = a :: range (a + 1) b.
Proof.
  intros Hab. unfold range.
  replace (Z.to_nat (b - a)) with (S (Z.to_nat (b - (a + 1)))) by lia.
  cbn [seq map]. f_equal; [lia|].
  rewrite <- seq_shift, map_map. apply map_ext. intros k. lia.
Qed.

Lemma pintar_length cor colors k : length (pintar cor colors k) = length colors.
Proof. unfold pintar. case_match; [apply length_insert|done]. Qed.

Lemma pintar_lookup cor (colors : list string) (k : Z) (i : nat) :
  length colors = 1440%nat ->
  pintar cor colors k !! i
  = if (Z.of_nat i =? k) && (k <? 1440) then Some cor else colors !! i.
Proof.
  intros Hlen. unfold pintar.
  destruct (Z.eqb_spec (Z.of_nat i) k) as [<-|Hne]; simpl.
  - destruct (Z.ltb_spec (Z.of_nat i) 1440).
    + replace (0 <=? Z.of_nat i) with true by (symmetry; apply Z.leb_le; lia). simpl.
      rewrite Nat2Z.id. apply list_lookup_insert_eq. lia.
    + by rewrite andb_false_r.
  - destruct ((0 <=? k) && (k <? 1440)) eqn:Hk; [|done].
    apply list_lookup_insert_ne. apply andb_true_iff in Hk. destruct Hk as [Hk _].
    apply Z.leb_le in Hk. lia.
Qed.

Lemma pintar_range_length cor (l : list Z) (colors : list string) :
  length (fold_left (pintar cor) l colors) = length colors.
Proof.
  revert colors. induction l as [|k l IH]; intros colors; [done|].
  simpl. by rewrite IH, pintar_length.
Qed.

Lemma pintar_range cor (n : nat) : forall (a b : Z) (colors : list string) (i : nat),
  Z.to_nat (b - a) = n -> length colors = 1440%nat ->
  fold_left (pintar cor) (range a b) colors !! i
  = if (a <=? Z.of_nat i) && (Z.of_nat i <? b) && (Z.of_nat i <? 1440)
    then Some cor else colors !! i.
Proof.
  induction n as [|n IH]; intros a b colors i Hn Hlen.
  - rewrite range_vazio by lia. simpl.
    destruct (Z.leb_spec a (Z.of_nat i)), (Z.ltb_spec (Z.of_nat i) b); simpl; try done. lia.
  - rewrite range_cons by lia. cbn [fold_left].
    rewrite (IH (a + 1) b) by (rewrite ?pintar_length; lia).
    rewrite pintar_lookup by done.
    destruct (Z.leb_spec (a + 1) (Z.of_nat i)), (Z.leb_spec a (Z.of_nat i)),
             (Z.ltb_spec (Z.of_nat i) b), (Z.ltb_spec (Z.of_nat i) 1440),
             (Z.eqb_spec (Z.of_nat i) a), (Z.ltb_spec a 1440); simpl; try done; lia.
Qed.

Lemma pintar_linha_length hoje agora colors r :
  length (pintar_linha hoje agora colors r) = length colors.
Proof. unfold pintar_linha. case_match; [done|apply pintar_range_length]. Qed.

Lemma pintar_linha_lookup hoje agora (colors : list string) (r : Log.linha) (i : nat) :
  length colors = 1440%nat -> (i < 1440)%nat ->
  pintar_linha hoje agora colors r !! i
  = if cobre hoje agora (Z.of_nat i) r then Some (cor_da_linha r) else colors !! i.
Proof.
  intros Hlen Hi. unfold pintar_linha, cobre.
  case_bool_decide as Hdia.
  - by rewrite (bool_decide_false (date (Log.data_hora r) = hoje)).
  - rewrite (bool_decide_true (date (Log.data_hora r) = hoje)) by done.
    rewrite (pintar_range _ _ _ _ _ _ eq_refl Hlen). fold (cor_da_linha r). cbn [andb].
    assert (fim_efetivo agora r = match Log.data_hora_final r with
                                  | Some fim => fim
                                  | None => agora
                                  end) as -> by done.
    set (fim := match Log.data_hora_final r with Some fim => fim | None => agora end).
    destruct (Z.leb_spec (minuto_do_dia (Log.data_hora r)) (Z.of_nat i)),
             (Z.ltb_spec (Z.of_nat i) (minuto_do_dia fim + 1)),
             (Z.leb_spec (Z.of_nat i) (minuto_do_dia fim)),
             (Z.ltb_spec (Z.of_nat i) 1440); simpl; try done; lia.
Qed.

Lemma linhas_pintadas_length hoje agora (t : list Log.linha) (colors : list string) :
  length (fold_left (pintar_linha hoje agora) t colors) = length colors.
Proof.
  revert colors. induction t as [|r t IH]; intros colors; [done|].
  simpl. by rewrite IH, pintar_linha_length.
Qed.

Lemma linhas_pintadas_lookup hoje agora (t : list Log.linha) (i : nat) :
  (i < 1440)%nat ->
  fold_left (pintar_linha hoje agora) t (replicate 1440 "gray") !! i
  = Some (match List.find (cobre hoje agora (Z.of_nat i)) (rev t) with
          | Some r => cor_da_linha r
          | None => "gray"
          end).
Proof.
  intros Hi. induction t as [|r t IH] using rev_ind.
  - cbn [fold_left rev List.find]. by apply lookup_replicate_2.
  - rewrite fold_left_app, rev_unit. cbn [fold_left List.find].
    rewrite pintar_linha_lookup; [|by rewrite linhas_pintadas_length, length_replicate|done].
    by destruct (cobre hoje agora (Z.of_nat i) r).
Qed.

Lemma horario_comercial_length colors m :
  length (horario_comercial colors m) = length colors.
Proof. unfold horario_comercial. case_match; [apply length_insert|done]. Qed.

Lemma horario_comercial_lookup (colors : list string) (m : Z) (i : nat) :
  0 <= m ->
  horario_comercial colors m !! i
  = if (Z.of_nat i =? m) && bool_decide (colors !! i = Some "gray")
    then Some "lightblue" else colors !! i.
Proof.
  intros Hm. unfold horario_comercial.
  destruct (Z.eqb_spec (Z.of_nat i) m) as [<-|Hne]; simpl.
  - rewrite Nat2Z.id. case_bool_decide as Hg; [|done].
    apply list_lookup_insert_eq. by apply lookup_lt_Some in Hg.
  - case_bool_decide; [|done]. apply list_lookup_insert_ne. lia.
Qed.

Lemma horario_comercial_range (n : nat) : forall (a b : Z) (colors : list string) (i : nat),
  Z.to_nat (b - a) = n -> 0 <= a ->
  fold_left horario_comercial (range a b) colors !! i
  = if (a <=? Z.of_nat i) && (Z.of_nat i <? b) && bool_decide (colors !! i = Some "gray")
    then Some "lightblue" else colors !! i.
Proof.
  induction n as [|n IH]; intros a b colors i Hn Ha.
  - rewrite range_vazio by lia. simpl.
    destruct (Z.leb_spec a (Z.of_nat i)), (Z.ltb_spec (Z.of_nat i) b); simpl; try done. lia.
  - rewrite range_cons by lia. cbn [fold_left].
    rewrite (IH (a + 1) b) by lia. rewrite !horario_comercial_lookup by done.
    destruct (Z.leb_spec (a + 1) (Z.of_nat i)), (Z.leb_spec a (Z.of_nat i)),
             (Z.ltb_spec (Z.of_nat i) b), (Z.eqb_spec (Z.of_nat i) a);
      simpl; try lia; repeat case_bool_decide; simplify_eq; done.
Qed.

Lemma horario_comercial_range_length (l : list Z) (colors : list string) :
  length (fold_left horario_comercial l colors) = length colors.
Proof.
  revert colors. induction l as [|k l IH]; intros colors; [done|].
  simpl. by rewrite IH, horario_comercial_length.
Qed.

Lemma linha_do_tempo_lookup (hoje : data) (agora : datahora) (t : list Log.linha) (i : nat) :
  (i < 1440)%nat ->
  linha_do_tempo hoje agora t !! i = Some (cor_do_slot hoje agora t (Z.of_nat i)).
Proof.
  intros Hi. unfold linha_do_tempo, cor_do_slot.
  rewrite (horario_comercial_range _ _ _ _ _ eq_refl) by lia.
  rewrite linhas_pintadas_lookup by done.
  destruct (List.find (cobre hoje agora (Z.of_nat i)) (rev t)) as [r|].
  - rewrite bool_decide_false; [by rewrite andb_false_r|].
    unfold cor_da_linha. by case_bool_decide.
  - rewrite bool_decide_true by done. rewrite andb_true_r.
    by destruct ((8 * 60 <=? Z.of_nat i) && (Z.of_nat i <? 18 * 60)).
Qed.

(** Whatever the table, the colour of a slot of the timeline is the
    colour of the last row, in table order, that starts on the selected
    day and whose minutes of start and of end (of "now" when it is
    open) enclose the slot: green for "Ativo", red for any other
    status; a slot that no row covers is light blue from 08:00 to
    17:59 and gray otherwise. *)
Theorem cor_de_cada_slot (hoje : data) (agora : datahora) (t : list Log.linha) (i : nat) :
  (i < 1440)%nat ->
  linha_do_tempo hoje agora t !! i = Some (cor_do_slot hoje agora t (Z.of_nat i)).
Proof. apply linha_do_tempo_lookup. Qed.

Lemma cor_de_cada_slot_witness :
  linha_do_tempo dia_exemplo (instante 12 0 0) (log_nove_horas 0 0) !! 541%nat
  = Some (cor_do_slot dia_exemplo (instante 12 0 0) (log_nove_horas 0 0) 541)
  /\ linha_do_tempo dia_exemplo (instante 12 0 0)
       [Log.Linha 1 "Ocioso" (instante 9 0 0) None] !! 720%nat
     = Some "red".
Proof.
  split.
  - apply (cor_de_cada_slot dia_exemplo (instante 12 0 0) (log_nove_horas 0 0) 541). lia.
  - rewrite (cor_de_cada_slot dia_exemplo (instante 12 0 0)
               [Log.Linha 1 "Ocioso" (instante 9 0 0) None] 720) by lia.
    reflexivity.
Defined.

(** The timeline always has 1440 slots, each of one of the four
    colours; from 08:00 to 17:59 no slot is gray and outside those
    hours no slot is light blue. *)
Theorem linha_do_tempo_cores (hoje : data) (agora : datahora) (t : list Log.linha) :
  length (linha_do_tempo hoje agora t) = 1440%nat
  /\ forall (i : nat) (c : string),
      linha_do_tempo hoje agora t !! i = Some c ->
      (c = "gray" \/ c = "lightblue" \/ c = "green" \/ c = "red")
      /\ (480 <= Z.of_nat i < 1080 -> c <> "gray")
      /\ (~ 480 <= Z.of_nat i < 1080 -> c <> "lightblue").
Proof.
  assert (length (linha_do_tempo hoje agora t) = 1440%nat) as Hlen.
  { unfold linha_do_tempo.
    by rewrite horario_comercial_range_length, linhas_pintadas_length, length_replicate. }
  split; [done|]. intros i c Hc.
  assert (i < 1440)%nat as Hi by (apply lookup_lt_Some in Hc; lia).
  rewrite linha_do_tempo_lookup in Hc by done. injection Hc as <-.
  unfold cor_do_slot. destruct (List.find _ _) as [r|].
  - unfold cor_da_linha. case_bool_decide; repeat split; eauto; done.
  - destruct (Z.leb_spec (8 * 60) (Z.of_nat i)), (Z.ltb_spec (Z.of_nat i) (18 * 60));
      simpl; repeat split; eauto; try done; lia.
Qed.

Lemma linha_do_tempo_cores_witness :
  length (linha_do_tempo dia_exemplo (instante 12 0 0) (log_nove_horas 0 0)) = 1440%nat
  /\ "green" <> "gray".
Proof.
  destruct (linha_do_tempo_cores dia_exemplo (instante 12 0 0) (log_nove_horas 0 0))
    as [Hlen Hcores].
  split; [exact Hlen|].
  apply (proj1 (proj2 (Hcores 541%nat "green" ltac:(vm_compute; reflexivity)))).
  lia.
Defined.

(** ** The tooltip names the minute of the slot *)

Lemma divmod_minuto_do_dia (t : datahora) :
  0 <= minuto t < 60 ->
  minuto_do_dia t / 60 = hora t /\ minuto_do_dia t mod 60 = minuto t.
Proof.
  intros Hm. unfold minuto_do_dia. split.
  - rewrite Z.add_comm, Z.div_add by done. rewrite Z.div_small by done. lia.
  - rewrite Z.add_comm, Z.mod_add by done. by apply Z.mod_small.
Qed.

Lemma tooltip_cinco_caracteres (k : nat) :
  (k < 1440)%nat ->
  String.length (formato_hora (Z.of_nat k / 60) (Z.of_nat k mod 60)) = 5%nat.
Proof.
  intros Hk.
  assert (forallb (fun k => Nat.eqb (String.length
                      (formato_hora (Z.of_nat k / 60) (Z.of_nat k mod 60))) 5)
            (seq 0 1440) = true) as Hall by (vm_compute; reflexivity).
  rewrite forallb_forall in Hall. apply Nat.eqb_eq, Hall, in_seq. lia.
Qed.



(** ** Day navigation and the refresh callbacks *)

Lemma dias_no_mes_limites (y m : Z) : 28 <= dias_no_mes y m <= 31.
Proof. unfold dias_no_mes. repeat case_match; lia. Qed.

Lemma dias_no_mes_dezembro (y : Z) : dias_no_mes y 12 = 31.
Proof. reflexivity. Qed.

Lemma mais_menos_um_dia (d d' : data) :
  data_valida d -> mais_um_dia d = Some d' ->
  data_valida d' /\ menos_um_dia d' = Some d.
Proof.
  destruct d as [[y m] dd]. unfold data_valida, mais_um_dia, menos_um_dia.
  intros (Hy & Hm & Hd) Hmais.
  pose proof (dias_no_mes_limites y m) as Hlim.
  destruct (Z.ltb_spec dd (dias_no_mes y m)).
  - injection Hmais as <-. split; [lia|].
    destruct (Z.ltb_spec 1 (dd + 1)); [|lia]. do 2 f_equal. lia.
  - destruct (Z.ltb_spec m 12).
    + injection Hmais as <-. pose proof (dias_no_mes_limites y (m + 1)). split; [lia|].
      destruct (Z.ltb_spec 1 1); [lia|]. destruct (Z.ltb_spec 1 (m + 1)); [|lia].
      replace (m + 1 - 1) with m by lia. do 2 f_equal; lia.
    + destruct (Z.ltb_spec y 9999); [|done]. injection Hmais as <-.
      assert (m = 12) as -> by lia. rewrite dias_no_mes_dezembro in *.
      split; [cbn; lia|].
      destruct (Z.ltb_spec 1 1); [lia|]. destruct (Z.ltb_spec 1 (y + 1)); [|lia].
      do 2 f_equal; [f_equal|]; lia.
Qed.

Lemma menos_mais_um_dia (d d' : data) :
  data_valida d -> menos_um_dia d = Some d' ->
  data_valida d' /\ mais_um_dia d' = Some d.
Proof.
  destruct d as [[y m] dd]. unfold data_valida, mais_um_dia, menos_um_dia.
  intros (Hy & Hm & Hd) Hmenos.
  pose proof (dias_no_mes_limites y m) as Hlim.
  destruct (Z.ltb_spec 1 dd).
  - injection Hmenos as <-. split; [lia|].
    destruct (Z.ltb_spec (dd - 1) (dias_no_mes y m)); [|lia]. do 2 f_equal. lia.
  - destruct (Z.ltb_spec 1 m).
    + injection Hmenos as <-. pose proof (dias_no_mes_limites y (m - 1)). split; [lia|].
      destruct (Z.ltb_spec (dias_no_mes y (m - 1)) (dias_no_mes y (m - 1))); [lia|].
      destruct (Z.ltb_spec (m - 1) 12); [|lia]. do 2 f_equal; [f_equal|]; lia.
    + destruct (Z.ltb_spec 1 y); [|done]. injection Hmenos as <-.
      rewrite dias_no_mes_dezembro. split; [lia|].
      destruct (Z.ltb_spec 31 31); [lia|]. destruct (Z.ltb_spec 12 12); [lia|].
      destruct (Z.ltb_spec (y - 1) 9999); [|lia]. do 2 f_equal; [f_equal|]; lia.
Qed.

(** On a valid selected day other than 9999-12-31, "Próximo" followed by
    "Anterior" comes back to the same day, and "Próximo" lands on
    another valid day; the same holds for "Anterior" followed by
    "Próximo" on a day other than 0001-01-01. On those two days the
    button that would leave the calendar changes nothing. *)
Theorem proximo_e_anterior (s : interface) :
  data_valida (data_selecionada s) ->
  (data_selecionada s <> (9999, 12, 31) ->
   data_valida (data_selecionada (dia_proximo s))
   /\ data_selecionada (dia_proximo s) <> data_selecionada s
   /\ data_selecionada (dia_anterior (dia_proximo s)) = data_selecionada s)
  /\ (data_selecionada s <> (1, 1, 1) ->
      data_valida (data_selecionada (dia_anterior s))
      /\ data_selecionada (dia_anterior s) <> data_selecionada s
      /\ data_selecionada (dia_proximo (dia_anterior s)) = data_selecionada s)
  /\ (data_selecionada s = (9999, 12, 31) -> dia_proximo s = s)
  /\ (data_selecionada s = (1, 1, 1) -> dia_anterior s = s).
Proof.
  intros Hval. destruct s as [d n]. cbn [data_selecionada] in *.
  split; [|split; [|split]].
  - intros Hmax. unfold dia_proximo. cbn [data_selecionada].
    destruct (mais_um_dia d) as [d'|] eqn:Hmais.
    + destruct (mais_menos_um_dia d d' Hval Hmais) as [Hval' Hmenos].
      unfold set_data, reagendar, dia_anterior. cbn [data_selecionada agendadas].
      rewrite Hmenos. cbn [set_data reagendar data_selecionada]. repeat split; try done.
      intros ->. destruct d as [[y m] dd]. unfold mais_um_dia in Hmais.
      repeat case_match; simplify_eq; lia.
    + exfalso. apply Hmax. destruct d as [[y m] dd].
      unfold mais_um_dia in Hmais. unfold data_valida in Hval.
      destruct (Z.ltb_spec dd (dias_no_mes y m)); [done|].
      destruct (Z.ltb_spec m 12); [done|]. destruct (Z.ltb_spec y 9999); [done|].
      assert (m = 12) as -> by lia. rewrite dias_no_mes_dezembro in *.
      do 2 f_equal; [f_equal|]; lia.
  - intros Hmin. unfold dia_anterior. cbn [data_selecionada].
    destruct (menos_um_dia d) as [d'|] eqn:Hmenos.
    + destruct (menos_mais_um_dia d d' Hval Hmenos) as [Hval' Hmais].
      unfold set_data, reagendar, dia_proximo. cbn [data_selecionada agendadas].
      rewrite Hmais. cbn [set_data reagendar data_selecionada]. repeat split; try done.
      intros ->. destruct d as [[y m] dd]. unfold menos_um_dia in Hmenos.
      pose proof (dias_no_mes_limites y (m - 1)).
      repeat case_match; simplify_eq; lia.
    + exfalso. apply Hmin. destruct d as [[y m] dd].
      unfold menos_um_dia in Hmenos. unfold data_valida in Hval.
      destruct (Z.ltb_spec 1 dd); [done|].
      destruct (Z.ltb_spec 1 m); [done|]. destruct (Z.ltb_spec 1 y); [done|].
      f_equal; [f_equal|]; lia.
  - intros ->. reflexivity.
  - intros ->. reflexivity.
Qed.

Lemma proximo_e_anterior_witness :
  data_selecionada (dia_anterior (dia_proximo (Interface (2024, 2, 29) 1))) = (2024, 2, 29).
Proof.
  refine (proj2 (proj2 (proj1 (proximo_e_anterior (Interface (2024, 2, 29) 1) _) _))).
  - vm_compute. intuition discriminate.
  - discriminate.
Defined.

(** Every refresh that runs from a timer re-arms one timer, and every
    navigation runs a refresh of its own that arms one more: after any
    sequence of events the number of pending refresh timers is the
    number there was plus the number of navigations, so it never goes
    down and no timer is ever cancelled. *)
Theorem temporizadores_acumulam (eventos : list evento) (s : interface) :
  agendadas (fold_left passo eventos s) = (agendadas s + navegacoes s eventos)%nat.
Proof.
  revert s. induction eventos as [|e eventos IH]; intros s.
  - simpl. lia.
  - cbn [fold_left navegacoes]. rewrite IH.
    assert (agendadas (passo s e) = (agendadas s + (if navega s e then 1 else 0))%nat) as ->;
      [|lia].
    destruct e; cbn [passo navega].
    + destruct (agendadas s) eqn:Hn; cbn; lia.
    + unfold dia_anterior. destruct (menos_um_dia (data_selecionada s)); cbn; lia.
    + unfold dia_proximo. destruct (mais_um_dia (data_selecionada s)); cbn; lia.
    + cbn. lia.
    + cbn. lia.
Qed.
